(** * Activation clustering: [ClusteringHandler.cluster_activations]

    A shallow embedding of [art/poison_detection/clustering_handler.py].

    The method receives a Python list of numpy matrices (one per class),
    resolves a projector ([FastICA] or [PCA]) and a clusterer ([KMeans])
    once, then walks the classes: it reduces each matrix when it has more
    than [ndims] columns, clusters the (possibly reduced) matrix and
    appends the labels and the reduced matrix to two result lists.

    numpy arrays are Python objects: they live in a store and are passed
    by reference.  The numeric routines of scikit-learn are not part of
    this repository; they are an interface ([Sklearn]) whose operations
    may read and write the store and numpy's global random state, and may
    raise.  What the method prints, and which library routine it calls on
    which class, is recorded in a trace. *)

From Stdlib Require Import ZArith QArith.
From stdpp Require Import gmap strings list pretty.

Local Open Scope Z_scope.

(** ** Data model *)

(** Object identity of a numpy array. *)
Abbreviation loc := nat (only parsing).

(** A two-dimensional numpy array: [np.shape] and the row-major buffer. *)
Record ndarray (scalar : Type) := NdArray {
  nrows : nat;
  ncols : nat;
  data : list scalar
}.
Arguments NdArray {scalar} _ _ _.
Arguments nrows {scalar} _.
Arguments ncols {scalar} _.
Arguments data {scalar} _.

#[global] Instance ndarray_inhabited scalar : Inhabited (ndarray scalar) :=
  populate (NdArray 0 0 []).

(** [np.shape(a)] *)
Definition np_shape {scalar} (a : ndarray scalar) : nat * nat :=
  (nrows a, ncols a).

(** A Python exception: its class name and its message. *)
Record exn := Exn { exn_type : string; exn_msg : string }.

(** What a Python call hands back: a value, [None] (a bare [return]) or a
    raised exception. *)
Inductive pyresult (A : Type) :=
| Returned (v : option A)
| Raised (e : exn).
Arguments Returned {A} v.
Arguments Raised {A} e.

(** Observable steps of one invocation: a line written by [print], and the
    library routine invoked for class [i] on array [x]. *)
Inductive event :=
| Print (line : string)
| FitTransformCall (i : nat) (x : loc)
| FitPredictCall (i : nat) (x : loc).

(** The part of the process state the numeric library can reach: the
    arrays, and numpy's global random state (estimators built without
    [random_state] draw from it). *)
Record memory (scalar RandomState : Type) := Memory {
  heap : gmap loc (ndarray scalar);
  rng : RandomState
}.
Arguments Memory {scalar RandomState} _ _.
Arguments heap {scalar RandomState} _.
Arguments rng {scalar RandomState} _.

(** Hyper-parameters of the two projectors the method can build. *)
Inductive projector_params :=
| FastICA_params (n_components max_iter : Z) (tol : Q)
| PCA_params (n_components : Z).

Definition n_components_of (ps : projector_params) : Z :=
  match ps with
  | FastICA_params k _ _ => k
  | PCA_params k => k
  end.

(** The number of columns scikit-learn's projectors give back for a class
    matrix [a] when [n_components] is positive.  [PCA] keeps
    [n_components] components (it raises when that exceeds the smaller
    side of the matrix).  [FastICA] lowers an [n_components] above the
    smaller side of the matrix to that side, with a warning. *)
Definition components_kept {scalar} (ps : projector_params)
    (a : ndarray scalar) : Z :=
  match ps with
  | FastICA_params k _ _ =>
      Z.min k (Z.min (Z.of_nat (nrows a)) (Z.of_nat (ncols a)))
  | PCA_params k => k
  end.

(** ** The numeric library

    scikit-learn's estimators, as far as the method uses them.  An
    estimator object carries its hyper-parameters and the attributes left
    by its last fit; [fit_transform] and [fit_predict] receive both. *)
Class Sklearn := {
  scalar : Type;
  RandomState : Type;
  projector_attrs : Type;
  clusterer_attrs : Type;
  unfitted_projector : projector_attrs;
  unfitted_clusterer : clusterer_attrs;
  sk_fit_transform :
    projector_params → projector_attrs → loc → memory scalar RandomState →
    (exn + projector_attrs * loc) * memory scalar RandomState;
  sk_fit_predict :
    Z → clusterer_attrs → loc → memory scalar RandomState →
    (exn + clusterer_attrs * list Z) * memory scalar RandomState
}.

(** An estimator object: hyper-parameters, and the attributes of its
    last fit. *)
Record Projector_of (attrs : Type) := MkProjector {
  proj_params : projector_params;
  proj_attrs : attrs
}.
Arguments MkProjector {attrs} _ _.
Arguments proj_params {attrs} _.
Arguments proj_attrs {attrs} _.

Record Clusterer_of (attrs : Type) := MkClusterer {
  n_clusters_of : Z;
  clus_attrs : attrs
}.
Arguments MkClusterer {attrs} _ _.
Arguments n_clusters_of {attrs} _.
Arguments clus_attrs {attrs} _.

(** The process state: the memory, and the trace of the invocation. *)
Record world_of (scalar RandomState : Type) := World {
  mem : memory scalar RandomState;
  trace : list event
}.
Arguments World {scalar RandomState} _ _.
Arguments mem {scalar RandomState} _.
Arguments trace {scalar RandomState} _.

(** The local variables the loop reads and updates.  [projector] and
    [clusterer] each name one estimator object, created before the loop
    and mutated by every fit. *)
Record locals_of (pattrs cattrs : Type) := Locals {
  projector : Projector_of pattrs;
  clusterer : Clusterer_of cattrs;
  separated_clusters : list (list Z);
  separated_reduced_activations : list loc
}.
Arguments Locals {pattrs cattrs} _ _ _ _.
Arguments projector {pattrs cattrs} _.
Arguments clusterer {pattrs cattrs} _.
Arguments separated_clusters {pattrs cattrs} _.
Arguments separated_reduced_activations {pattrs cattrs} _.

Abbreviation mem_t := (memory scalar RandomState).
Abbreviation Projector := (Projector_of projector_attrs).
Abbreviation Clusterer := (Clusterer_of clusterer_attrs).
Abbreviation world := (world_of scalar RandomState).
Abbreviation locals := (locals_of projector_attrs clusterer_attrs).

(** ** Estimator constructors *)

Section Monad.
Context {L : Sklearn}.

(** [FastICA(n_components=.., max_iter=.., tol=..)] *)
Definition FastICA (n_components max_iter : Z) (tol : Q) : Projector :=
  MkProjector (FastICA_params n_components max_iter tol) unfitted_projector.

(** [PCA(n_components=..)] *)
Definition PCA (n_components : Z) : Projector :=
  MkProjector (PCA_params n_components) unfitted_projector.

(** [KMeans(n_clusters=..)] *)
Definition KMeans (n_clusters : Z) : Clusterer :=
  MkClusterer n_clusters unfitted_clusterer.

(** ** The monad of the method body *)

Definition M (A : Type) : Type := world → (exn + A) * world.

Definition ret {A} (a : A) : M A := λ w, (inr a, w).

Definition bind {A B} (c : M A) (k : A → M B) : M B :=
  λ w, match c w with
       | (inl e, w') => (inl e, w')
       | (inr a, w') => k a w'
       end.

Definition emit (ev : event) : M unit :=
  λ w, (inr tt, World (mem w) (trace w ++ [ev])).

(** [print(line)] *)
Definition print (line : string) : M unit := emit (Print line).

(** A library routine runs on the memory; the trace is out of its reach. *)
Definition call {A} (f : mem_t → (exn + A) * mem_t) : M A :=
  λ w, let '(r, m') := f (mem w) in (r, World m' (trace w)).

(** [np.shape(ac)] of the array a reference denotes.  A Python reference
    always denotes a live object; for an address the store lacks, the
    total lookup yields the empty array. *)
Definition shape_of (ac : loc) : M (nat * nat) :=
  λ w, (inr (np_shape (heap (mem w) !!! ac)), w).

End Monad.

Notation "'let*' x ':=' c 'in' k" := (bind c (λ x, k))
  (at level 10, x pattern, c at level 100, k at level 200, only parsing).

(** ** The method *)

Section ClusteringHandler.
Context {L : Sklearn}.

(** [projector.fit_transform(ac)], for class [i]: the call is entered in
    the trace, the library routine runs, and the projector object keeps
    its hyper-parameters and takes the new fitted attributes. *)
Definition fit_transform (i : nat) (p : Projector) (ac : loc)
  : M (Projector * loc) :=
  let* _ := emit (FitTransformCall i ac) in
  let* r := call (sk_fit_transform (proj_params p) (proj_attrs p) ac) in
  ret (MkProjector (proj_params p) r.1, r.2).

(** [clusterer.fit_predict(reduced_activations)], for class [i], in the
    same way. *)
Definition fit_predict (i : nat) (c : Clusterer) (x : loc)
  : M (Clusterer * list Z) :=
  let* _ := emit (FitPredictCall i x) in
  let* r := call (sk_fit_predict (n_clusters_of c) (clus_attrs c) x) in
  ret (MkClusterer (n_clusters_of c) r.1, r.2).

(** The line printed when a class is passed through unreduced; [%i] is
    the decimal form of a Python int. *)
Definition not_applying_notice (n_activations : nat) (ndims : Z) : string :=
  "Dimensionality of activations = " +:+ pretty (Z.of_nat n_activations)
  +:+ " less than ndims = " +:+ pretty ndims
  +:+ ". Not applying dimensionality reduction...".

Definition reduce_not_supported (reduce : string) : string :=
  reduce +:+ " dimensionality reduction method not supported.".

Definition clustering_not_supported (clustering_method : string) : string :=
  clustering_method +:+ " clustering method not supported.".

(** One turn of [for i, ac in enumerate(separated_activations)]. *)
Definition loop_body (ndims : Z) (i : nat) (ac : loc) (st : locals)
  : M locals :=
  let* shp := shape_of ac in
  let n_activations := shp.2 in
  let* pr :=
    (if Z.of_nat n_activations >? ndims
     then fit_transform i (projector st) ac
     else let* _ := print (not_applying_notice n_activations ndims) in
          ret (projector st, ac)) in
  let reduced_activations := pr.2 in
  let reduced_list := separated_reduced_activations st ++ [reduced_activations] in
  let* cr := fit_predict i (clusterer st) reduced_activations in
  ret (Locals pr.1 cr.1 (separated_clusters st ++ [cr.2]) reduced_list).

(** The reduction half of one turn: which array goes on to clustering. *)
Definition reduce_step (ndims : Z) (i : nat) (ac : loc) (p : Projector)
  : M (Projector * loc) :=
  let* shp := shape_of ac in
  if Z.of_nat shp.2 >? ndims
  then fit_transform i p ac
  else let* _ := print (not_applying_notice shp.2 ndims) in ret (p, ac).

Fixpoint for_each (ndims : Z) (i : nat) (acs : list loc) (st : locals)
  : M locals :=
  match acs with
  | [] => ret st
  | ac :: rest =>
      let* st' := loop_body ndims i ac st in
      for_each ndims (S i) rest st'
  end.

(** The part of the method after the projector has been resolved. *)
Definition cluster_with (projector : Projector)
    (separated_activations : list loc) (n_clusters ndims : Z)
    (clustering_method : string)
  : world → pyresult (list (list Z) * list loc) * world :=
  λ w,
  if decide (clustering_method = "KMeans") then
    let clusterer := KMeans n_clusters in
    match for_each ndims 0 separated_activations
            (Locals projector clusterer [] []) w with
    | (inl e, w') => (Raised e, w')
    | (inr st, w') =>
        (Returned (Some (separated_clusters st,
                         separated_reduced_activations st)), w')
    end
  else
    match print (clustering_not_supported clustering_method) w with
    | (_, w') => (Returned None, w')
    end.

Definition cluster_activations
    (separated_activations : list loc) (n_clusters ndims : Z)
    (reduce clustering_method : string)
  : world → pyresult (list (list Z) * list loc) * world :=
  λ w,
  if decide (reduce = "FastICA") then
    cluster_with (FastICA ndims 1000 0.005%Q)
      separated_activations n_clusters ndims clustering_method w
  else if decide (reduce = "PCA") then
    cluster_with (PCA ndims)
      separated_activations n_clusters ndims clustering_method w
  else
    match print (reduce_not_supported reduce) w with
    | (_, w') => (Returned None, w')
    end.

(** Lines written to standard output, oldest first. *)
Definition stdout (t : list event) : list string :=
  omap (λ ev, match ev with Print line => Some line | _ => None end) t.

(** The events one invocation may add to the trace: the pass-through
    notice for some dimensionality not above [ndims], one of the two
    "not supported" lines, or a library call. *)
Definition method_event (ndims : Z) (reduce clustering_method : string)
    (ev : event) : Prop :=
  match ev with
  | Print line =>
      (∃ d : nat, Z.of_nat d ≤ ndims ∧ line = not_applying_notice d ndims)
      ∨ line = reduce_not_supported reduce
      ∨ line = clustering_not_supported clustering_method
  | FitTransformCall _ _ | FitPredictCall _ _ => True
  end.

(** The hyper-parameters the method gives the projector it resolves. *)
Definition params_for (reduce : string) (ndims : Z) : projector_params :=
  if decide (reduce = "FastICA") then FastICA_params ndims 1000 0.005%Q
  else PCA_params ndims.

(** *** The factory variant

    The design the spec's notes describe, written out for comparison with
    the method: "a factory that constructs a fresh, identically-configured
    algorithm instance per class", in place of the one projector and the
    one clusterer the method creates before the loop.  It is written over
    the library's two routines directly: every class gets an unfitted
    projector with hyper-parameters [ps] and an unfitted clusterer with
    [n_clusters] clusters, and the turn is entered in the trace as the
    method enters its own. *)
Definition loop_body_factory (ps : projector_params) (n_clusters ndims : Z)
    (i : nat) (ac : loc) (w : world) : (exn + list Z * loc) * world :=
  let d := ncols (heap (mem w) !!! ac) in
  if Z.of_nat d >? ndims then
    match sk_fit_transform ps unfitted_projector ac (mem w) with
    | (inl e, m1) => (inl e, World m1 (trace w ++ [FitTransformCall i ac]))
    | (inr (_, y), m1) =>
        let t := trace w ++ [FitTransformCall i ac; FitPredictCall i y] in
        match sk_fit_predict n_clusters unfitted_clusterer y m1 with
        | (inl e, m2) => (inl e, World m2 t)
        | (inr (_, labels), m2) => (inr (labels, y), World m2 t)
        end
    end
  else
    let t := trace w ++ [Print (not_applying_notice d ndims);
                         FitPredictCall i ac] in
    match sk_fit_predict n_clusters unfitted_clusterer ac (mem w) with
    | (inl e, m2) => (inl e, World m2 t)
    | (inr (_, labels), m2) => (inr (labels, ac), World m2 t)
    end.

Fixpoint for_each_factory (ps : projector_params) (n_clusters ndims : Z)
    (i : nat) (acs : list loc) (w : world)
  : (exn + list (list Z) * list loc) * world :=
  match acs with
  | [] => (inr ([], []), w)
  | ac :: rest =>
      match loop_body_factory ps n_clusters ndims i ac w with
      | (inl e, w1) => (inl e, w1)
      | (inr (labels, r), w1) =>
          match for_each_factory ps n_clusters ndims (S i) rest w1 with
          | (inl e, w2) => (inl e, w2)
          | (inr (cl, red), w2) => (inr (labels :: cl, r :: red), w2)
          end
      end
  end.

Definition cluster_activations_factory
    (separated_activations : list loc) (n_clusters ndims : Z)
    (reduce clustering_method : string)
  : world → pyresult (list (list Z) * list loc) * world :=
  λ w,
  if decide (reduce = "FastICA" ∨ reduce = "PCA") then
    if decide (clustering_method = "KMeans") then
      match for_each_factory (params_for reduce ndims) n_clusters ndims 0
              separated_activations w with
      | (inl e, w') => (Raised e, w')
      | (inr acc, w') => (Returned (Some acc), w')
      end
    else
      (Returned None,
       World (mem w)
         (trace w ++ [Print (clustering_not_supported clustering_method)]))
  else
    (Returned None,
     World (mem w) (trace w ++ [Print (reduce_not_supported reduce)])).

(** *** The library's part in a run

    [processed ps k ndims acs f g m cl red m']: starting from memory [m],
    with the projector's attributes [f] and the clusterer's [g], the
    library has reduced (the classes with more than [ndims] columns) and
    clustered every class of [acs] in turn without raising, each routine
    starting from the memory and the attributes the one before it left.
    [cl] holds the labels [fit_predict] returned, [red] the arrays it was
    given, and [m'] is the memory after the last class. *)
Inductive processed (ps : projector_params) (k ndims : Z)
  : list loc → projector_attrs → clusterer_attrs → mem_t →
    list (list Z) → list loc → mem_t → Prop :=
| processed_nil f g m :
    processed ps k ndims [] f g m [] [] m
| processed_narrow ac acs f g m g1 labels m1 cl red m' :
    Z.of_nat (ncols (heap m !!! ac)) ≤ ndims →
    sk_fit_predict k g ac m = (inr (g1, labels), m1) →
    processed ps k ndims acs f g1 m1 cl red m' →
    processed ps k ndims (ac :: acs) f g m (labels :: cl) (ac :: red) m'
| processed_wide ac acs f g m f1 y m1 g1 labels m2 cl red m' :
    Z.of_nat (ncols (heap m !!! ac)) > ndims →
    sk_fit_transform ps f ac m = (inr (f1, y), m1) →
    sk_fit_predict k g y m1 = (inr (g1, labels), m2) →
    processed ps k ndims acs f1 g1 m2 cl red m' →
    processed ps k ndims (ac :: acs) f g m (labels :: cl) (y :: red) m'.

(** *** A view used to compare runs *)


End ClusteringHandler.

(** ** What the method relies on from the library

    The contracts below are the documented behaviour of scikit-learn's
    estimators with their default arguments.  Each speaks of a call that
    has returned; none says when a routine returns.  Each is a property of
    an [Sklearn] instance; a theorem names the ones it uses. *)
Section Contracts.
Context (L : Sklearn).

(** Neither routine overwrites or frees an array that exists ([copy=True],
    [copy_x=True]): results are new arrays. *)
Definition leaves_arrays_intact : Prop :=
  (∀ ps f x m r m',
      sk_fit_transform ps f x m = (r, m') → heap m ⊆ heap m') ∧
  (∀ k f x m r m',
      sk_fit_predict k f x m = (r, m') → heap m ⊆ heap m').

(** [fit_transform] returns a new array with one row per input row. *)
Definition transform_rows : Prop :=
  ∀ ps f x m f' y m' a,
    sk_fit_transform ps f x m = (inr (f', y), m') →
    heap m !! x = Some a →
    ∃ b, heap m' !! y = Some b ∧ nrows b = nrows a.

(** With a positive [n_components], the array [fit_transform] returns has
    [components_kept] columns. *)
Definition transform_columns : Prop :=
  ∀ ps f x m f' y m' a,
    sk_fit_transform ps f x m = (inr (f', y), m') →
    heap m !! x = Some a →
    ∃ b, heap m' !! y = Some b
         ∧ (0 < n_components_of ps →
            Z.of_nat (ncols b) = components_kept ps a).

(** [fit_predict] returns one label per input row. *)
Definition predict_shape : Prop :=
  ∀ k f x m g labels m' a,
    sk_fit_predict k f x m = (inr (g, labels), m') →
    heap m !! x = Some a →
    length labels = nrows a.

(** Labels are cluster indices. *)
Definition predict_range : Prop :=
  ∀ k f x m g labels m',
    sk_fit_predict k f x m = (inr (g, labels), m') →
    Forall (λ c, 0 ≤ c < k) labels.

(** What a caller sees of a fit, the estimator's new attributes apart. *)
Definition seen {A B} (r : (exn + A * B) * memory scalar RandomState)
  : (exn + B) * memory scalar RandomState :=
  (match r.1 with inl e => inl e | inr ab => inr ab.2 end, r.2).

(** A fit starts from scratch: what it returns and what it does to the
    memory do not depend on the attributes an earlier fit left. *)
Definition refits : Prop :=
  (∀ ps f f' x m,
      seen (sk_fit_transform ps f x m) = seen (sk_fit_transform ps f' x m)) ∧
  (∀ k g g' x m,
      seen (sk_fit_predict k g x m) = seen (sk_fit_predict k g' x m)).

End Contracts.

(** ** Reading a trace *)

(** Python's [enumerate], from a given first index. *)
Fixpoint enumerate_from {A} (i : nat) (l : list A) : list (nat * A) :=
  match l with
  | [] => []
  | x :: rest => (i, x) :: enumerate_from (S i) rest
  end.

Definition enumerate {A} (l : list A) : list (nat * A) := enumerate_from 0 l.

(** The [fit_predict] calls of a trace, as (class index, array) pairs. *)
Definition predict_calls (t : list event) : list (nat * loc) :=
  omap (λ ev, match ev with FitPredictCall i x => Some (i, x) | _ => None end) t.

(** The [fit_transform] calls of a trace. *)
Definition transform_calls (t : list event) : list (nat * loc) :=
  omap (λ ev, match ev with FitTransformCall i x => Some (i, x) | _ => None end) t.

(** The classes of [acs] whose matrix, in store [h], has more than [ndims]
    columns, with their indices; and the others. *)
Definition wide_classes {scalar} (ndims : Z) (h : gmap loc (ndarray scalar))
    (acs : list (nat * loc)) : list (nat * loc) :=
  filter (λ p, ndims < Z.of_nat (ncols (h !!! p.2))) acs.

Definition narrow_classes {scalar} (ndims : Z) (h : gmap loc (ndarray scalar))
    (acs : list (nat * loc)) : list (nat * loc) :=
  filter (λ p, Z.of_nat (ncols (h !!! p.2)) ≤ ndims) acs.

(** ** A small executable library

    A stand-in for scikit-learn on which the method can be run: arrays of
    integers, projectors that keep the leading columns, a clusterer that
    deals labels round-robin starting at an offset drawn from the global
    random state, which it advances.  For a positive [n_components] and a
    positive [n_clusters] the routines treat shapes as scikit-learn's do:
    the PCA projector raises when [n_components] exceeds
    [min(rows, columns)]; the FastICA projector wants two rows and a
    column, and lowers [n_components] to [min(rows, columns)]; the
    clusterer wants a row and a column, and raises when there are fewer
    rows than clusters.  A value below one is refused here.  The messages
    are the stand-in's own.  Both estimators count their fits in their
    attributes. *)
Module Stub.

Definition keep_columns (k d : nat) (buf : list Z) (n : nat) : list Z :=
  flat_map (λ r, take k (drop (r * d) buf)) (seq 0 n).

Definition next_loc (h : gmap loc (ndarray Z)) : loc :=
  map_fold (λ l _ acc, Nat.max (S l) acc) 0%nat h.

Definition requires_transform (ps : projector_params) (shp : nat * nat) : bool :=
  match ps with
  | PCA_params k =>
      (1 <=? k) && (k <=? Z.min (Z.of_nat shp.1) (Z.of_nat shp.2))
  | FastICA_params k _ _ =>
      (2 <=? Z.of_nat shp.1) && (1 <=? Z.of_nat shp.2) && (1 <=? k)
  end.

Definition requires_predict (k : Z) (shp : nat * nat) : bool :=
  (1 <=? Z.of_nat shp.1) && (1 <=? k) && (k <=? Z.of_nat shp.1).

Definition stub_fit_transform (ps : projector_params) (fits : nat) (x : loc)
    (m : memory Z nat) : (exn + nat * loc) * memory Z nat :=
  match heap m !! x with
  | None => (inl (Exn "TypeError" "not an array"), m)
  | Some a =>
      if requires_transform ps (np_shape a) then
        let k := Z.to_nat (components_kept ps a) in
        let y := next_loc (heap m) in
        let b := NdArray (nrows a) k (keep_columns k (ncols a) (data a) (nrows a)) in
        (inr (S fits, y), Memory (<[y := b]> (heap m)) (rng m))
      else
        (inl (Exn "ValueError"
                ("n_components=" +:+ pretty (n_components_of ps)
                 +:+ " does not fit an array of shape ("
                 +:+ pretty (nrows a) +:+ ", " +:+ pretty (ncols a) +:+ ")")),
         m)
  end.

Definition stub_fit_predict (k : Z) (fits : nat) (x : loc)
    (m : memory Z nat) : (exn + nat * list Z) * memory Z nat :=
  match heap m !! x with
  | None => (inl (Exn "TypeError" "not an array"), m)
  | Some a =>
      if (ncols a =? 0)%nat then
        (inl (Exn "ValueError"
                ("Found array with 0 feature(s) (shape=("
                 +:+ pretty (nrows a)
                 +:+ ", 0)) while a minimum of 1 is required.")), m)
      else if requires_predict k (np_shape a) then
        (inr (S fits,
              map (λ j, Z.of_nat (j + rng m) mod k) (seq 0 (nrows a))),
         Memory (heap m) (S (rng m)))
      else
        (inl (Exn "ValueError"
                ("n_samples=" +:+ pretty (nrows a)
                 +:+ " should be >= n_clusters=" +:+ pretty k)), m)
  end.

#[export] Instance sklearn : Sklearn := {|
  scalar := Z;
  RandomState := nat;
  projector_attrs := nat;
  clusterer_attrs := nat;
  unfitted_projector := 0%nat;
  unfitted_clusterer := 0%nat;
  sk_fit_transform := stub_fit_transform;
  sk_fit_predict := stub_fit_predict
|}.

(** A 3 x 2 array at address 0, a 3 x 4 array at address 1 and a 2 x 4
    array at address 2. *)
Definition arrays : gmap loc (ndarray Z) :=
  {[ 0%nat := NdArray 3 2 [1; 2; 3; 4; 5; 6];
     1%nat := NdArray 3 4 [1; 2; 3; 4; 5; 6; 7; 8; 9; 10; 11; 12];
     2%nat := NdArray 2 4 [1; 2; 3; 4; 5; 6; 7; 8] ]}.

Definition start (seed : nat) : world := World (Memory arrays seed) [].

End Stub.

(** ** The test configuration: [conftest.py]

    The pytest hooks and fixtures that select the machine-learning
    framework under test and hand out the classifiers for it.  The
    classifiers come from [tests/utils_test.py] and from ART's wrappers;
    here they are the variables of a section.  An attack is represented by
    its [is_valid_classifier_type] test.  A fixture's result is paired
    with the warnings it logs. *)
Module Conftest.

Definition art_supported_frameworks : list string :=
  ["keras"; "tensorflow"; "pytorch"; "scikitlearn"].

(** [sep.join(l)] *)
Fixpoint join (sep : string) (l : list string) : string :=
  match l with
  | [] => ""
  | [x] => x
  | x :: rest => x +:+ sep +:+ join sep rest
  end.

(** [pytest_addoption]: the value [--mlFramework] takes when the command
    line does not give it. *)
Definition mlFramework_default : string := "tensorflow".

(** [request.config.getoption("--mlFramework")] *)
Definition getoption (given : option string) : string :=
  default mlFramework_default given.

Definition unsupported_message (mlFramework : string) : string :=
  "mlFramework value " +:+ mlFramework
  +:+ " is unsupported. Please use one of these valid values: "
  +:+ join " " art_supported_frameworks.

Definition get_mlFramework (given : option string) : exn + string :=
  let mlFramework := getoption given in
  if decide (mlFramework ∉ art_supported_frameworks)
  then inl (Exn "Exception" (unsupported_message mlFramework))
  else inr mlFramework.

(** A local variable that may not have been assigned yet. *)
Inductive binding (A : Type) :=
| Unbound
| Bound (v : A).
Arguments Unbound {A}.
Arguments Bound {A} v.

(** Reading an unassigned local variable (the message is the one of the
    Python versions before 3.11). *)
Definition unbound_local (name : string) : exn :=
  Exn "UnboundLocalError"
    ("local variable '" +:+ name +:+ "' referenced before assignment").

Definition no_defended_image (mlFramework : string) : string :=
  mlFramework +:+ " doesn't have a defended image classifier defined yet".

Definition no_image (mlFramework : string) : string :=
  mlFramework +:+ " doesn't have an image classifier defined yet".

Definition no_uncliped (mlFramework : string) : string :=
  mlFramework +:+ " doesn't have an uncliped classifier defined yet".

Section Fixtures.
Variable classifier : Type.
Variable session : Type.
(** [utils_test.get_image_classifier_kr()], [.._tf()], [.._pt()] *)
Variable get_image_classifier_kr : classifier.
Variable get_image_classifier_tf : classifier * session.
Variable get_image_classifier_pt : classifier.
(** [KerasClassifier(model=c._model, clip_values=(0, 1), defences=fs)] with
    [fs = FeatureSqueezing(bit_depth=1, clip_values=(0, 1))] *)
Variable keras_with_feature_squeezing : classifier → classifier.
(** [utils_test.get_tabular_classifier_kr()], [.._tf()], [.._pt()] *)
Variable get_tabular_classifier_kr : classifier.
Variable get_tabular_classifier_tf : classifier * session.
Variable get_tabular_classifier_pt : classifier.
(** [KerasClassifier(model=c._model, use_logits=False, channel_index=1)] *)
Variable keras_unclipped : classifier → classifier.
(** [utils_test.get_tabular_classifier_scikit_list(clipped=..)] *)
Variable get_tabular_classifier_scikit_list : bool → list classifier.

(** The state of a fixture body: [classifier_list], and the warnings
    logged so far. *)
Definition fixture_state : Type :=
  binding (option (list classifier)) * list string.

(** The end of both fixture bodies: [None] stays [None], a list is
    filtered by the attack; reading an unassigned variable raises. *)
Definition finish (attack : classifier → bool) (s : fixture_state)
  : (exn + option (list classifier)) * list string :=
  match s.1 with
  | Unbound => (inl (unbound_local "classifier_list"), s.2)
  | Bound None => (inr None, s.2)
  | Bound (Some classifier_list) =>
      (inr (Some (List.filter attack classifier_list)), s.2)
  end.

(** [_image_classifier_list(attack, defended)], for the framework the
    [get_mlFramework] fixture supplied. *)
Definition image_classifier_list (get_mlFramework : string)
    (attack : classifier → bool) (defended : bool)
  : (exn + option (list classifier)) * list string :=
  let s0 : fixture_state := (Unbound, []) in
  let s1 : fixture_state :=
    if decide (get_mlFramework = "keras") then
      if defended
      then (Bound (Some [keras_with_feature_squeezing get_image_classifier_kr]),
            s0.2)
      else (Bound (Some [get_image_classifier_kr]), s0.2)
    else s0 in
  let s2 : fixture_state :=
    if decide (get_mlFramework = "tensorflow") then
      if defended
      then (Bound None, s1.2 ++ [no_defended_image get_mlFramework])
      else (Bound (Some [get_image_classifier_tf.1]), s1.2)
    else s1 in
  let s3 : fixture_state :=
    if decide (get_mlFramework = "pytorch") then
      if defended
      then (Bound None, s2.2 ++ [no_defended_image get_mlFramework])
      else (Bound (Some [get_image_classifier_pt]), s2.2)
    else s2 in
  let s4 : fixture_state :=
    if decide (get_mlFramework = "scikitlearn") then
      if defended
      then (Bound None, s3.2 ++ [no_defended_image get_mlFramework])
      else (Bound None, s3.2 ++ [no_image get_mlFramework])
    else s3 in
  finish attack s4.

(** [_tabular_classifier_list(attack, clipped)] *)
Definition tabular_classifier_list (get_mlFramework : string)
    (attack : classifier → bool) (clipped : bool)
  : (exn + option (list classifier)) * list string :=
  let s0 : fixture_state := (Unbound, []) in
  let s1 : fixture_state :=
    if decide (get_mlFramework = "keras") then
      if clipped
      then (Bound (Some [get_tabular_classifier_kr]), s0.2)
      else (Bound (Some [keras_unclipped get_tabular_classifier_kr]), s0.2)
    else s0 in
  let s2 : fixture_state :=
    if decide (get_mlFramework = "tensorflow") then
      if clipped
      then (Bound (Some [get_tabular_classifier_tf.1]), s1.2)
      else (Bound None, s1.2 ++ [no_uncliped get_mlFramework])
    else s1 in
  let s3 : fixture_state :=
    if decide (get_mlFramework = "pytorch") then
      if clipped
      then (Bound (Some [get_tabular_classifier_pt]), s2.2)
      else (Bound None, s2.2 ++ [no_uncliped get_mlFramework])
    else s2 in
  if decide (get_mlFramework = "scikitlearn") then
    (inr (Some (get_tabular_classifier_scikit_list false)), s3.2)
  else finish attack s3.

End Fixtures.

End Conftest.

(** ** How the loop runs *)
Section Loop.
Context {L : Sklearn}.

Lemma fit_transform_run i p ac w :
  fit_transform i p ac w =
  match sk_fit_transform (proj_params p) (proj_attrs p) ac (mem w) with
  | (inl e, m') => (inl e, World m' (trace w ++ [FitTransformCall i ac]))
  | (inr (f, y), m') =>
      (inr (MkProjector (proj_params p) f, y),
       World m' (trace w ++ [FitTransformCall i ac]))
  end.
Proof.
  unfold fit_transform, bind, emit, call, ret; simpl.
  destruct (sk_fit_transform _ _ _ _) as [[e|[f y]] m']; reflexivity.
Qed.

Lemma fit_predict_run i c x w :
  fit_predict i c x w =
  match sk_fit_predict (n_clusters_of c) (clus_attrs c) x (mem w) with
  | (inl e, m') => (inl e, World m' (trace w ++ [FitPredictCall i x]))
  | (inr (g, labels), m') =>
      (inr (MkClusterer (n_clusters_of c) g, labels),
       World m' (trace w ++ [FitPredictCall i x]))
  end.
Proof.
  unfold fit_predict, bind, emit, call, ret; simpl.
  destruct (sk_fit_predict _ _ _ _) as [[e|[g labels]] m']; reflexivity.
Qed.

Lemma loop_body_run ndims i ac st w :
  loop_body ndims i ac st w =
  match reduce_step ndims i ac (projector st) w with
  | (inl e, w1) => (inl e, w1)
  | (inr (p, r), w1) =>
      match fit_predict i (clusterer st) r w1 with
      | (inl e, w2) => (inl e, w2)
      | (inr (c, labels), w2) =>
          (inr (Locals p c (separated_clusters st ++ [labels])
                  (separated_reduced_activations st ++ [r])), w2)
      end
  end.
Proof.
  unfold loop_body, reduce_step, bind, shape_of, ret; simpl.
  destruct (_ >? _).
  - destruct (fit_transform _ _ _ _) as [[e|[p r]] w1]; [done|]; simpl.
    destruct (fit_predict _ _ _ _) as [[e|[c labels]] w2]; done.
  - unfold print, emit; simpl.
    destruct (fit_predict _ _ _ _) as [[e|[c labels]] w2]; done.
Qed.

Lemma reduce_step_run ndims i ac p w :
  reduce_step ndims i ac p w =
  let d := ncols (heap (mem w) !!! ac) in
  if Z.of_nat d >? ndims then fit_transform i p ac w
  else (inr (p, ac),
        World (mem w) (trace w ++ [Print (not_applying_notice d ndims)])).
Proof.
  unfold reduce_step, bind, shape_of, print, emit, ret; simpl.
  by destruct (_ >? _).
Qed.

(** A turn that completes: the array clustered is either the projector's
    output or the class matrix itself. *)
Lemma loop_body_inr ndims i ac st w st' w' :
  loop_body ndims i ac st w = (inr st', w') →
  ∃ r labels f g m1,
    st' = Locals (MkProjector (proj_params (projector st)) f)
                 (MkClusterer (n_clusters_of (clusterer st)) g)
                 (separated_clusters st ++ [labels])
                 (separated_reduced_activations st ++ [r]) ∧
    sk_fit_predict (n_clusters_of (clusterer st)) (clus_attrs (clusterer st))
      r m1 = (inr (g, labels), mem w') ∧
    ((Z.of_nat (ncols (heap (mem w) !!! ac)) > ndims ∧
      sk_fit_transform (proj_params (projector st)) (proj_attrs (projector st))
        ac (mem w) = (inr (f, r), m1) ∧
      trace w' = trace w ++ [FitTransformCall i ac; FitPredictCall i r])
     ∨
     (Z.of_nat (ncols (heap (mem w) !!! ac)) ≤ ndims ∧
      r = ac ∧ m1 = mem w ∧ f = proj_attrs (projector st) ∧
      trace w' = trace w ++
        [Print (not_applying_notice (ncols (heap (mem w) !!! ac)) ndims);
         FitPredictCall i ac])).
Proof.
  rewrite loop_body_run, reduce_step_run. cbv zeta.
  destruct (Z.gtb_spec (Z.of_nat (ncols (heap (mem w) !!! ac))) ndims) as [Hd|Hd].
  - rewrite fit_transform_run.
    destruct (sk_fit_transform _ _ _ _) as [[e|[f y]] m1] eqn:Hft; [done|].
    rewrite fit_predict_run; simpl.
    destruct (sk_fit_predict _ _ _ _) as [[e|[g labels]] m2] eqn:Hfp; [done|].
    intros [= <- <-]. exists y, labels, f, g, m1. split; [done|].
    split; [done|]. left. split; [lia|]. split; [done|].
    simpl. by rewrite <- app_assoc.
  - rewrite fit_predict_run; simpl.
    destruct (sk_fit_predict _ _ _ _) as [[e|[g labels]] m2] eqn:Hfp; [done|].
    intros [= <- <-].
    exists ac, labels, (proj_attrs (projector st)), g, (mem w).
    split; [by destruct st as [[] ?]|].
    split; [done|]. right. split; [lia|].
    repeat split. simpl. by rewrite <- app_assoc.
Qed.

(** A turn that raises: the exception is the library's. *)
Lemma loop_body_inl ndims i ac st w e w' :
  loop_body ndims i ac st w = (inl e, w') →
  sk_fit_transform (proj_params (projector st)) (proj_attrs (projector st))
    ac (mem w) = (inl e, mem w')
  ∨ ∃ r m1, sk_fit_predict (n_clusters_of (clusterer st))
              (clus_attrs (clusterer st)) r m1 = (inl e, mem w').
Proof.
  rewrite loop_body_run, reduce_step_run. cbv zeta.
  destruct (_ >? _).
  - rewrite fit_transform_run.
    destruct (sk_fit_transform _ _ _ _) as [[e1|[f y]] m1] eqn:Hft.
    + intros [= <- <-]. by left.
    + rewrite fit_predict_run; simpl.
      destruct (sk_fit_predict _ _ _ _) as [[e2|[g labels]] m2] eqn:Hfp; [|done].
      intros [= <- <-]. right. by exists y, m1.
  - rewrite fit_predict_run; simpl.
    destruct (sk_fit_predict _ _ _ _) as [[e2|[g labels]] m2] eqn:Hfp; [|done].
    intros [= <- <-]. right. by exists ac, (mem w).
Qed.

(** Whatever its outcome, a turn only appends to the trace, and what it
    appends is a notice or a library call. *)
Lemma loop_body_trace ndims reduce cm i ac st w r w' :
  loop_body ndims i ac st w = (r, w') →
  ∃ evs, trace w' = trace w ++ evs
         ∧ Forall (method_event ndims reduce cm) evs.
Proof.
  rewrite loop_body_run, reduce_step_run. cbv zeta.
  destruct (Z.gtb_spec (Z.of_nat (ncols (heap (mem w) !!! ac))) ndims) as [Hd|Hd].
  - rewrite fit_transform_run.
    destruct (sk_fit_transform _ _ _ _) as [[e1|[f y]] m1] eqn:Hft.
    + intros [= <- <-]. eexists; split; [done|]. by repeat constructor.
    + rewrite fit_predict_run; simpl.
      destruct (sk_fit_predict _ _ _ _) as [[e2|[g labels]] m2] eqn:Hfp;
        intros [= <- <-]; simpl; rewrite <- app_assoc;
        (eexists; split; [done|]); by repeat constructor.
  - rewrite fit_predict_run; simpl.
    destruct (sk_fit_predict _ _ _ _) as [[e2|[g labels]] m2] eqn:Hfp;
      intros [= <- <-]; simpl; rewrite <- app_assoc;
      (eexists; split; [done|]);
      (apply Forall_cons_2; [left; by eauto|by repeat constructor]).
Qed.

(** With a library that leaves arrays intact, so does a turn. *)
Lemma loop_body_heap ndims i ac st w r w' :
  leaves_arrays_intact L →
  loop_body ndims i ac st w = (r, w') →
  heap (mem w) ⊆ heap (mem w').
Proof.
  intros [Hft Hfp].
  rewrite loop_body_run, reduce_step_run. cbv zeta.
  destruct (_ >? _).
  - rewrite fit_transform_run.
    destruct (sk_fit_transform _ _ _ _) as [[e1|[f y]] m1] eqn:E1.
    + intros [= <- <-]. simpl. by eapply Hft.
    + rewrite fit_predict_run; simpl.
      destruct (sk_fit_predict _ _ _ _) as [[e2|[g labels]] m2] eqn:E2;
        intros [= <- <-]; simpl;
        (etrans; [by eapply Hft | by eapply Hfp]).
  - rewrite fit_predict_run; simpl.
    destruct (sk_fit_predict _ _ _ _) as [[e2|[g labels]] m2] eqn:E2;
      intros [= <- <-]; simpl; by eapply Hfp.
Qed.

Lemma for_each_frame ndims reduce cm acs i st w r w' :
  leaves_arrays_intact L →
  for_each ndims i acs st w = (r, w') →
  heap (mem w) ⊆ heap (mem w')
  ∧ ∃ evs, trace w' = trace w ++ evs
           ∧ Forall (method_event ndims reduce cm) evs.
Proof.
  intros HL. revert i st w.
  induction acs as [|ac acs IH]; intros i st w; simpl.
  - unfold ret. intros [= <- <-]. split; [done|].
    exists []. by rewrite app_nil_r.
  - unfold bind.
    destruct (loop_body _ _ _ _ _) as [[e|st1] w1] eqn:Hb.
    + intros [= <- <-]. split; [by eapply loop_body_heap|].
      by eapply loop_body_trace.
    + intros Hrun. destruct (IH _ _ _ Hrun) as (Hh & evs2 & Ht2 & Hevs2).
      destruct (loop_body_trace _ reduce cm _ _ _ _ _ _ Hb) as (evs1 & Ht1 & Hevs1).
      split; [etrans; [by eapply loop_body_heap|done]|].
      exists (evs1 ++ evs2). rewrite Ht2, Ht1, app_assoc.
      split; [done|]. by apply Forall_app.
Qed.

Lemma for_each_app ndims acs1 acs2 i st w :
  for_each ndims i (acs1 ++ acs2) st w =
  match for_each ndims i acs1 st w with
  | (inl e, w') => (inl e, w')
  | (inr st', w') => for_each ndims (i + length acs1) acs2 st' w'
  end.
Proof.
  revert i st w; induction acs1 as [|ac acs1 IH]; intros i st w; simpl.
  - unfold ret. by rewrite Nat.add_0_r.
  - unfold bind. destruct (loop_body _ _ _ _ _) as [[e|st1] w1]; [done|].
    rewrite IH. by replace (S i + length acs1)%nat with (i + S (length acs1))%nat by lia.
Qed.

(** Induction over the classes walked so far, for a run that returns. *)
Lemma for_each_invariant ndims acs (P : nat → locals → world → Prop) :
  (∀ i ac st w st' w',
      acs !! i = Some ac → P i st w →
      loop_body ndims i ac st w = (inr st', w') → P (S i) st' w') →
  ∀ st w st' w',
    P 0%nat st w →
    for_each ndims 0 acs st w = (inr st', w') →
    P (length acs) st' w'.
Proof.
  intros Hstep.
  assert (Hgen : ∀ rest done st w st' w',
             acs = done ++ rest → P (length done) st w →
             for_each ndims (length done) rest st w = (inr st', w') →
             P (length acs) st' w').
  { induction rest as [|ac rest IH]; intros done st w st' w' -> HP Hrun.
    - simpl in Hrun. unfold ret in Hrun. simplify_eq.
      by rewrite app_nil_r.
    - simpl in Hrun. unfold bind in Hrun.
      destruct (loop_body _ _ _ _ _) as [[e|st1] w1] eqn:Hb; [done|].
      apply (IH (done ++ [ac]) st1 w1).
      + by rewrite <- app_assoc.
      + rewrite length_app, Nat.add_1_r.
        eapply Hstep; [|exact HP|exact Hb].
        by rewrite lookup_app_r, Nat.sub_diag.
      + by rewrite length_app, Nat.add_1_r. }
  intros st w st' w' HP Hrun. by apply (Hgen acs [] st w).
Qed.

End Loop.

(** ** The executable library meets the contracts *)
Section StubFacts.

Lemma next_loc_above (h : gmap loc (ndarray Z)) l :
  is_Some (h !! l) → (l < Stub.next_loc h)%nat.
Proof.
  unfold Stub.next_loc.
  apply (map_fold_weak_ind
           (λ r (m : gmap loc (ndarray Z)), is_Some (m !! l) → (l < r)%nat)).
  - rewrite lookup_empty. by intros [? ?].
  - intros j x m r Hj IH. rewrite lookup_insert.
    case_decide as Hjl; [subst; lia|].
    intros Hl. specialize (IH Hl). lia.
Qed.

Lemma next_loc_fresh (h : gmap loc (ndarray Z)) : h !! Stub.next_loc h = None.
Proof.
  destruct (h !! Stub.next_loc h) eqn:E; [|done].
  assert (Stub.next_loc h < Stub.next_loc h)%nat; [|lia].
  apply next_loc_above. by rewrite E.
Qed.

Lemma stub_leaves_arrays_intact : leaves_arrays_intact Stub.sklearn.
Proof.
  split; simpl.
  - intros ps f x m r m'. unfold Stub.stub_fit_transform.
    destruct (heap m !! x) as [a|]; [|by intros [= <- <-]].
    destruct (Stub.requires_transform _ _); intros [= <- <-]; simpl; [|done].
    apply insert_subseteq, next_loc_fresh.
  - intros k f x m r m'. unfold Stub.stub_fit_predict.
    destruct (heap m !! x) as [a|]; [|by intros [= <- <-]].
    destruct (_ =? _)%nat; [by intros [= <- <-]|].
    by destruct (Stub.requires_predict _ _); intros [= <- <-].
Qed.

Lemma stub_transform_rows : transform_rows Stub.sklearn.
Proof.
  intros ps f x m f' y m' a; simpl. unfold Stub.stub_fit_transform.
  intros Hrun Ha. rewrite Ha in Hrun.
  destruct (Stub.requires_transform _ _) eqn:Hreq; [|done].
  injection Hrun as <- <- <-. simpl.
  eexists. rewrite lookup_insert_eq. by split.
Qed.

Lemma stub_transform_columns : transform_columns Stub.sklearn.
Proof.
  intros ps f x m f' y m' a; simpl. unfold Stub.stub_fit_transform.
  intros Hrun Ha. rewrite Ha in Hrun.
  destruct (Stub.requires_transform _ _) eqn:Hreq; [|done].
  injection Hrun as <- <- <-. simpl.
  eexists. rewrite lookup_insert_eq. split; [done|]. simpl. intros Hk.
  unfold components_kept. destruct ps; simpl in *; lia.
Qed.

Lemma stub_predict_shape : predict_shape Stub.sklearn.
Proof.
  intros k f x m g labels m' a; simpl. unfold Stub.stub_fit_predict.
  intros Hrun Ha. rewrite Ha in Hrun.
  destruct (_ =? _)%nat; [done|].
  destruct (Stub.requires_predict _ _); [|done].
  injection Hrun as <- <- <-. by rewrite length_map, length_seq.
Qed.

Lemma stub_predict_range : predict_range Stub.sklearn.
Proof.
  intros k f x m g labels m'; simpl. unfold Stub.stub_fit_predict.
  intros Hrun.
  destruct (_ !! _) as [a|] in Hrun; [|done].
  destruct (_ =? _)%nat in Hrun; [done|].
  destruct (Stub.requires_predict _ _) eqn:Hreq in Hrun; [|done].
  injection Hrun as <- <- <-.
  unfold Stub.requires_predict in Hreq.
  apply andb_prop in Hreq as [Hreq _]. apply andb_prop in Hreq as [_ Hk].
  apply Z.leb_le in Hk.
  apply Forall_forall. intros c Hc.
  apply list_elem_of_In, in_map_iff in Hc as (j & <- & _).
  apply Z.mod_pos_bound. lia.
Qed.

Lemma stub_refits : refits Stub.sklearn.
Proof.
  split; simpl.
  - intros ps f f' x m. unfold Stub.stub_fit_transform.
    destruct (heap m !! x) as [a|]; [|done].
    by destruct (Stub.requires_transform _ _).
  - intros k g g' x m. unfold Stub.stub_fit_predict.
    destruct (heap m !! x) as [a|]; [|done].
    destruct (_ =? _)%nat; [done|].
    by destruct (Stub.requires_predict _ _).
Qed.

End StubFacts.

(** ** The trace is write-only *)
Section TraceFrame.
Context {L : Sklearn}.





End TraceFrame.

(** ** Unsupported method names, and the empty class list *)
Section Configuration.
Context {L : Sklearn}.

Lemma for_each_params ndims acs i st w st' w' :
  for_each ndims i acs st w = (inr st', w') →
  proj_params (projector st') = proj_params (projector st)
  ∧ n_clusters_of (clusterer st') = n_clusters_of (clusterer st).
Proof.
  revert i st w. induction acs as [|ac acs IH]; intros i st w; simpl.
  - unfold ret. by intros [= <- <-].
  - unfold bind.
    destruct (loop_body _ _ _ _ _) as [[e|st1] w1] eqn:Hb; [done|].
    intros Hrun. apply IH in Hrun as [-> ->].
    apply loop_body_inr in Hb as (r & labels & f & g & m1 & -> & _). done.
Qed.

Lemma cluster_activations_supported acts k ndims reduce cm w :
  reduce = "FastICA" ∨ reduce = "PCA" →
  cluster_activations acts k ndims reduce cm w
  = cluster_with (MkProjector (params_for reduce ndims) unfitted_projector)
      acts k ndims cm w.
Proof.
  unfold cluster_activations, params_for, FastICA, PCA.
  intros [-> | ->]; by repeat case_decide.
Qed.

(** C10: with supported method names and an empty list of classes the
    call raises nothing and returns a pair of two empty lists, leaving
    the process state as it was. *)
Theorem empty_class_list_returns_empty_lists
    (n_clusters ndims : Z) (reduce clustering_method : string) (w : world) :
  reduce = "FastICA" ∨ reduce = "PCA" →
  clustering_method = "KMeans" →
  cluster_activations [] n_clusters ndims reduce clustering_method w
  = (Returned (Some ([], [])), w).
Proof.
  intros Hred ->. rewrite cluster_activations_supported by done.
  unfold cluster_with. by case_decide.
Qed.

(** C1, as the code has it: an unsupported [reduce] (or, with a supported
    [reduce], an unsupported [clustering_method]) makes the call print one
    line naming the value and return [None]; nothing is raised, no class
    is processed and the memory is untouched.  [n_clusters] and [ndims]
    are not checked: with supported names and no class, any values are
    accepted. *)
Theorem unsupported_method_prints_and_returns_none
    (separated_activations : list loc) (n_clusters ndims : Z)
    (reduce clustering_method : string) (w : world) :
  (reduce ≠ "FastICA" ∧ reduce ≠ "PCA") ∨ clustering_method ≠ "KMeans" →
  cluster_activations separated_activations n_clusters ndims
    reduce clustering_method w
  = (Returned None,
     World (mem w)
       (trace w ++
        [Print (if decide (reduce = "FastICA" ∨ reduce = "PCA")
                then clustering_not_supported clustering_method
                else reduce_not_supported reduce)]))
  ∧ ∀ k d : Z,
      cluster_activations [] k d "PCA" "KMeans" w
      = (Returned (Some ([], [])), w).
Proof.
  intros Hbad. split.
  - unfold cluster_activations, cluster_with, print, emit.
    destruct (decide (reduce = "FastICA")) as [Hf|Hf];
      [|destruct (decide (reduce = "PCA")) as [Hp|Hp]].
    + rewrite (decide_True (P := reduce = "FastICA" ∨ reduce = "PCA")) by auto.
      destruct (decide (clustering_method = "KMeans")) as [Hk|Hk]; [|done].
      by destruct Hbad as [[? _]|?].
    + rewrite (decide_True (P := reduce = "FastICA" ∨ reduce = "PCA")) by auto.
      destruct (decide (clustering_method = "KMeans")) as [Hk|Hk]; [|done].
      by destruct Hbad as [[_ ?]|?].
    + rewrite (decide_False (P := reduce = "FastICA" ∨ reduce = "PCA")); [done|].
      by intros [?|?].
  - intros k d. unfold cluster_activations, cluster_with.
    by repeat case_decide.
Qed.

End Configuration.

(** ** Errors and side effects *)
Section Effects.
Context {L : Sklearn}.

(** C3, as the code has it: the method checks no row count.  When the
    classes before [ac] have been processed and the turn for [ac] raises,
    the call raises that very exception (no result is returned), and the
    exception is one the library raised in [fit_transform] or
    [fit_predict]. *)
Theorem library_error_propagates
    (pre : list loc) (ac : loc) (post : list loc) (n_clusters ndims : Z)
    (reduce : string) (w : world) (st : locals) (w1 : world)
    (e : exn) (w2 : world) :
  reduce = "FastICA" ∨ reduce = "PCA" →
  for_each ndims 0 pre
    (Locals (MkProjector (params_for reduce ndims) unfitted_projector)
       (KMeans n_clusters) [] []) w = (inr st, w1) →
  loop_body ndims (length pre) ac st w1 = (inl e, w2) →
  cluster_activations (pre ++ ac :: post) n_clusters ndims reduce "KMeans" w
  = (Raised e, w2)
  ∧ (sk_fit_transform (params_for reduce ndims) (proj_attrs (projector st))
       ac (mem w1) = (inl e, mem w2)
     ∨ ∃ r m1, sk_fit_predict n_clusters (clus_attrs (clusterer st)) r m1
               = (inl e, mem w2)).
Proof.
  intros Hred Hpre Hturn. split.
  - rewrite cluster_activations_supported by done.
    unfold cluster_with. case_decide; [|done].
    rewrite for_each_app, Hpre. simpl. unfold bind.
    by rewrite Hturn.
  - destruct (for_each_params _ _ _ _ _ _ _ Hpre) as [Hp Hk]. simpl in Hp, Hk.
    apply loop_body_inl in Hturn. by rewrite Hp, Hk in Hturn.
Qed.

(** C9, as the code has it: with a library that leaves arrays intact,
    every array that existed before the call (the inputs among them) is
    unchanged after it, whatever the outcome; the method does write to
    standard output, and all it adds to the trace are pass-through
    notices, a "not supported" line, and library calls. *)
Theorem arrays_unchanged_and_output_is_notices
    (separated_activations : list loc) (n_clusters ndims : Z)
    (reduce clustering_method : string) (w : world)
    (r : pyresult (list (list Z) * list loc)) (w' : world) :
  leaves_arrays_intact L →
  cluster_activations separated_activations n_clusters ndims
    reduce clustering_method w = (r, w') →
  (∀ x a, heap (mem w) !! x = Some a → heap (mem w') !! x = Some a)
  ∧ ∃ evs, trace w' = trace w ++ evs
           ∧ Forall (method_event ndims reduce clustering_method) evs.
Proof.
  intros HL Hrun.
  assert (Hgoal : heap (mem w) ⊆ heap (mem w')
            ∧ ∃ evs, trace w' = trace w ++ evs
                     ∧ Forall (method_event ndims reduce clustering_method) evs).
  { assert (Hwith : ∀ p, cluster_with p separated_activations n_clusters ndims
                           clustering_method w = (r, w') →
              heap (mem w) ⊆ heap (mem w')
              ∧ ∃ evs, trace w' = trace w ++ evs
                       ∧ Forall (method_event ndims reduce clustering_method) evs).
    { intros p. unfold cluster_with. case_decide.
      - destruct (for_each _ _ _ _ _) as [[e|st] w1] eqn:Hfe;
          intros [= <- <-];
          by eapply (for_each_frame _ reduce clustering_method).
      - unfold print, emit. intros [= <- <-]. simpl. split; [done|].
        eexists; split; [done|]. constructor; [|done]. right; by right. }
    revert Hrun. unfold cluster_activations. repeat case_decide; [apply Hwith..|].
    unfold print, emit. intros [= <- <-]. simpl. split; [done|].
    eexists; split; [done|]. constructor; [|done]. right; by left. }
  destruct Hgoal as [Hsub Hevs]. split; [|done].
  intros x a Hx. by eapply lookup_weaken.
Qed.

End Effects.

(** ** Runs, class by class *)
Section Classes.
Context {L : Sklearn}.

Lemma n_components_of_params_for reduce ndims :
  n_components_of (params_for reduce ndims) = ndims.
Proof. unfold params_for. by case_decide. Qed.

(** With supported method names the call raises or returns a pair. *)
Lemma supported_call_outcome acts k ndims reduce w r w' :
  reduce = "FastICA" ∨ reduce = "PCA" →
  cluster_activations acts k ndims reduce "KMeans" w = (r, w') →
  (∃ e, r = Raised e) ∨ ∃ cl red, r = Returned (Some (cl, red)).
Proof.
  intros Hred. rewrite cluster_activations_supported by done.
  unfold cluster_with. rewrite decide_True by done.
  destruct (for_each _ _ _ _ _) as [[e|st] w1]; intros [= <- <-].
  - left. by eauto.
  - right. by eauto.
Qed.

(** Facts about single classes survive the rest of the run when they only
    depend on arrays staying where they are. *)
Lemma for_each_pointwise ndims acs st0 w0 st' w'
    (R : gmap loc (ndarray scalar) → loc → list Z → loc → Prop) :
  leaves_arrays_intact L →
  (∀ h h' ac labels r, h ⊆ h' → R h ac labels r → R h' ac labels r) →
  (∀ i ac st w st1 w1 labels r,
      acs !! i = Some ac →
      heap (mem w0) ⊆ heap (mem w) →
      proj_params (projector st) = proj_params (projector st0) →
      n_clusters_of (clusterer st) = n_clusters_of (clusterer st0) →
      loop_body ndims i ac st w = (inr st1, w1) →
      separated_clusters st1 = separated_clusters st ++ [labels] →
      separated_reduced_activations st1
        = separated_reduced_activations st ++ [r] →
      R (heap (mem w1)) ac labels r) →
  separated_clusters st0 = [] →
  separated_reduced_activations st0 = [] →
  for_each ndims 0 acs st0 w0 = (inr st', w') →
  length (separated_clusters st') = length acs
  ∧ length (separated_reduced_activations st') = length acs
  ∧ ∀ i ac, acs !! i = Some ac →
      ∃ labels r, separated_clusters st' !! i = Some labels
                  ∧ separated_reduced_activations st' !! i = Some r
                  ∧ R (heap (mem w')) ac labels r.
Proof.
  intros HL Hmono Hstep Hcl0 Hred0 Hrun.
  pose (P := λ (i : nat) (st : locals) (w : world),
    heap (mem w0) ⊆ heap (mem w)
    ∧ proj_params (projector st) = proj_params (projector st0)
    ∧ n_clusters_of (clusterer st) = n_clusters_of (clusterer st0)
    ∧ length (separated_clusters st) = i
    ∧ length (separated_reduced_activations st) = i
    ∧ ∀ j ac, (j < i)%nat → acs !! j = Some ac →
        ∃ labels r, separated_clusters st !! j = Some labels
                    ∧ separated_reduced_activations st !! j = Some r
                    ∧ R (heap (mem w)) ac labels r).
  assert (HP : P (length acs) st' w').
  { apply (for_each_invariant ndims acs P) with (st := st0) (w := w0);
      [|unfold P; rewrite Hcl0, Hred0; repeat split; try done; intros; lia|done].
    intros i ac st w st1 w1 Hi (Hsub & Hps & Hk & Hlc & Hlr & Hold) Hb.
    pose proof (loop_body_heap _ _ _ _ _ _ _ HL Hb) as Hgrow.
    pose proof Hb as Hb'.
    apply loop_body_inr in Hb' as (r & labels & f & g & m1 & Hst1 & _).
    assert (Hcl1 : separated_clusters st1 = separated_clusters st ++ [labels])
      by by rewrite Hst1.
    assert (Hred1 : separated_reduced_activations st1
                    = separated_reduced_activations st ++ [r])
      by by rewrite Hst1.
    pose proof (Hstep i ac st w st1 w1 labels r Hi Hsub Hps Hk Hb Hcl1 Hred1) as HR.
    unfold P. rewrite Hcl1, Hred1, !length_app. simpl.
    repeat split; [by etrans|by rewrite Hst1|by rewrite Hst1|lia|lia|].
    intros j acj Hj Hacj.
    destruct (decide (j = i)) as [->|Hne].
    - assert (acj = ac) as -> by congruence.
      exists labels, r.
      rewrite !lookup_app_r by lia.
      rewrite Hlc, Hlr, Nat.sub_diag. done.
    - destruct (Hold j acj) as (lj & rj & Hlj & Hrj & HRj); [lia|done|].
      exists lj, rj.
      rewrite !lookup_app_l by lia.
      repeat split; try done. by eapply Hmono. }
  destruct HP as (_ & _ & _ & Hlc & Hlr & Hall).
  repeat split; try done.
  intros i ac Hi. apply Hall; [|done]. by eapply lookup_lt_Some.
Qed.

Lemma cluster_activations_returned acts k ndims reduce cm w cl red w' :
  cluster_activations acts k ndims reduce cm w
  = (Returned (Some (cl, red)), w') →
  (reduce = "FastICA" ∨ reduce = "PCA") ∧ cm = "KMeans" ∧
  ∃ st', for_each ndims 0 acts
           (Locals (MkProjector (params_for reduce ndims) unfitted_projector)
              (KMeans k) [] []) w = (inr st', w')
         ∧ separated_clusters st' = cl
         ∧ separated_reduced_activations st' = red.
Proof.
  intros Hrun.
  assert (Hred : reduce = "FastICA" ∨ reduce = "PCA").
  { revert Hrun. unfold cluster_activations, print, emit.
    repeat case_decide; auto. done. }
  split; [done|].
  rewrite cluster_activations_supported in Hrun by done.
  unfold cluster_with, print, emit in Hrun.
  case_decide; [|done]. split; [done|].
  destruct (for_each _ _ _ _ _) as [[e|st'] w1]; [done|].
  injection Hrun as <- <- <-. by eauto.
Qed.

(** The array a completed turn hands to the clusterer and appends to the
    result has the rows of the class matrix. *)
Lemma turn_reduced_rows ndims i ac st w st1 w1 a labels r :
  leaves_arrays_intact L → transform_rows L →
  heap (mem w) !! ac = Some a →
  loop_body ndims i ac st w = (inr st1, w1) →
  separated_clusters st1 = separated_clusters st ++ [labels] →
  separated_reduced_activations st1
    = separated_reduced_activations st ++ [r] →
  ∃ b m1 g,
    heap m1 !! r = Some b ∧ heap (mem w1) !! r = Some b
    ∧ sk_fit_predict (n_clusters_of (clusterer st)) (clus_attrs (clusterer st))
        r m1 = (inr (g, labels), mem w1)
    ∧ nrows b = nrows a.
Proof.
  intros [_ HLp] Hshape Ha Hb Hcl Hred.
  apply loop_body_inr in Hb as (r' & labels' & f & g & m1 & Hst1 & Hfp & Hcase).
  rewrite Hst1 in Hcl, Hred. simpl in Hcl, Hred.
  apply app_inj_tail in Hcl as [_ <-]. apply app_inj_tail in Hred as [_ <-].
  pose proof (HLp _ _ _ _ _ _ Hfp) as Hgrow.
  destruct Hcase as [(Hd & Hft & _) | (Hd & -> & -> & _)].
  - destruct (Hshape _ _ _ _ _ _ _ _ Hft Ha) as (b & Hb & Hrows).
    exists b, m1, g. repeat split; try done.
    by eapply lookup_weaken.
  - exists a, (mem w), g. repeat split; try done.
    by eapply lookup_weaken.
Qed.

(** Its columns: those of the class matrix when the class is passed
    through, those the projector keeps when it is reduced. *)
Lemma turn_reduced_columns ndims i ac st w st1 w1 a labels r :
  leaves_arrays_intact L → transform_columns L →
  n_components_of (proj_params (projector st)) = ndims →
  heap (mem w) !! ac = Some a →
  loop_body ndims i ac st w = (inr st1, w1) →
  separated_clusters st1 = separated_clusters st ++ [labels] →
  separated_reduced_activations st1
    = separated_reduced_activations st ++ [r] →
  ∃ b,
    heap (mem w1) !! r = Some b
    ∧ (Z.of_nat (ncols a) ≤ ndims → r = ac ∧ ncols b = ncols a)
    ∧ (ndims < Z.of_nat (ncols a) → 0 < ndims →
       Z.of_nat (ncols b) = components_kept (proj_params (projector st)) a).
Proof.
  intros [_ HLp] Hshape Hnd Ha Hb Hcl Hred.
  apply loop_body_inr in Hb as (r' & labels' & f & g & m1 & Hst1 & Hfp & Hcase).
  rewrite Hst1 in Hcl, Hred. simpl in Hcl, Hred.
  apply app_inj_tail in Hcl as [_ <-]. apply app_inj_tail in Hred as [_ <-].
  rewrite (lookup_total_correct _ _ _ Ha) in Hcase.
  pose proof (HLp _ _ _ _ _ _ Hfp) as Hgrow.
  destruct Hcase as [(Hd & Hft & _) | (Hd & -> & -> & _)].
  - destruct (Hshape _ _ _ _ _ _ _ _ Hft Ha) as (b & Hb & Hcols).
    exists b. split; [by eapply lookup_weaken|]. split; [lia|].
    intros _ Hpos. apply Hcols. lia.
  - exists a. split; [by eapply lookup_weaken|]. split; [done|lia].
Qed.

(** C4, as the code has it: a class matrix with rows can still be refused
    by the library, so the call does not always return.  With supported
    method names the call either raises or returns two lists with one
    entry per class; for class [i] the labels and the reduced matrix have
    as many rows as the class matrix. *)
Theorem result_shapes_match_input
    (separated_activations : list loc) (n_clusters ndims : Z)
    (reduce clustering_method : string) (w : world)
    (r : pyresult (list (list Z) * list loc)) (w' : world) :
  leaves_arrays_intact L → transform_rows L → predict_shape L →
  reduce = "FastICA" ∨ reduce = "PCA" →
  clustering_method = "KMeans" →
  cluster_activations separated_activations n_clusters ndims
    reduce clustering_method w = (r, w') →
  (∃ e, r = Raised e)
  ∨ ∃ cl red,
      r = Returned (Some (cl, red))
      ∧ length cl = length separated_activations
      ∧ length red = length separated_activations
      ∧ ∀ i x a,
          separated_activations !! i = Some x →
          heap (mem w) !! x = Some a →
          ∃ labels y b,
            cl !! i = Some labels ∧ red !! i = Some y
            ∧ heap (mem w') !! y = Some b
            ∧ length labels = nrows a ∧ nrows b = nrows a.
Proof.
  intros HL Hshape Hpshape Hred -> Hrun.
  destruct (supported_call_outcome _ _ _ _ _ _ _ Hred Hrun)
    as [He | (cl & red & ->)]; [by left|].
  right. exists cl, red. split; [done|].
  apply cluster_activations_returned in Hrun
    as (_ & _ & st' & Hfe & <- & <-).
  apply (for_each_pointwise ndims separated_activations _ w st' w'
    (λ h ac labels y, ∀ a, heap (mem w) !! ac = Some a →
       ∃ b, h !! y = Some b ∧ length labels = nrows a ∧ nrows b = nrows a)
    HL) in Hfe as (Hlc & Hlr & Hall); [|..|done|done].
  - repeat split; try done.
    intros i x a Hi Ha.
    destruct (Hall i x Hi) as (labels & y & Hl & Hy & HR).
    destruct (HR a Ha) as (b & Hb & Hlen & Hrows).
    by exists labels, y, b.
  - intros h h' ac labels y Hsub HR a Ha.
    destruct (HR a Ha) as (b & Hb & ?). exists b. split; [|done].
    by eapply lookup_weaken.
  - intros i ac st w1 st1 w2 labels y Hi Hsub Hps Hk Hb Hcl Hredl a Ha.
    destruct (turn_reduced_rows ndims i ac st w1 st1 w2 a labels y)
      as (b & m1 & g & Hb1 & Hb2 & Hfp & Hrows); try done.
    { by eapply lookup_weaken. }
    exists b. split; [done|]. split; [|done].
    rewrite <- Hrows. by eapply Hpshape.
Qed.

(** C6, as the code has it: the reduced matrix returned for a class with
    at most [ndims] columns is the class matrix, with its own column
    count.  For a class with more than [ndims] columns (and a positive
    [ndims]) it has the columns the projector keeps: exactly [ndims] with
    PCA, and the smaller of [ndims] and the row count with FastICA, which
    lowers [n_components] to what the matrix allows. *)
Theorem reduced_column_count
    (separated_activations : list loc) (n_clusters ndims : Z)
    (reduce clustering_method : string) (w : world)
    (cl : list (list Z)) (red : list loc) (w' : world)
    (i : nat) (x : loc) (a : ndarray scalar) :
  leaves_arrays_intact L → transform_columns L →
  cluster_activations separated_activations n_clusters ndims
    reduce clustering_method w = (Returned (Some (cl, red)), w') →
  separated_activations !! i = Some x →
  heap (mem w) !! x = Some a →
  ∃ y b,
    red !! i = Some y ∧ heap (mem w') !! y = Some b
    ∧ (Z.of_nat (ncols a) ≤ ndims → y = x ∧ ncols b = ncols a)
    ∧ (ndims < Z.of_nat (ncols a) → 0 < ndims →
       Z.of_nat (ncols b) = components_kept (params_for reduce ndims) a
       ∧ (reduce = "PCA" → Z.of_nat (ncols b) = ndims)
       ∧ (reduce = "FastICA" →
          Z.of_nat (ncols b) = Z.min ndims (Z.of_nat (nrows a)))).
Proof.
  intros HL Hshape Hrun Hi Ha.
  apply cluster_activations_returned in Hrun
    as (_ & _ & st' & Hfe & <- & <-).
  apply (for_each_pointwise ndims separated_activations _ w st' w'
    (λ h ac labels y, ∀ a, heap (mem w) !! ac = Some a →
       ∃ b, h !! y = Some b
            ∧ (Z.of_nat (ncols a) ≤ ndims → y = ac ∧ ncols b = ncols a)
            ∧ (ndims < Z.of_nat (ncols a) → 0 < ndims →
               Z.of_nat (ncols b)
               = components_kept (params_for reduce ndims) a))
    HL) in Hfe as (_ & _ & Hall); [|..|done|done].
  - destruct (Hall i x Hi) as (labels & y & _ & Hy & HR).
    destruct (HR a Ha) as (b & Hb & Hnarrow & Hwide).
    exists y, b. split; [done|]. split; [done|]. split; [done|].
    intros Hd Hpos. specialize (Hwide Hd Hpos). split; [done|].
    rewrite Hwide. unfold params_for, components_kept.
    split; intros ->; [by rewrite decide_False|rewrite decide_True by done; lia].
  - intros h h' ac labels y Hsub HR a' Ha'.
    destruct (HR a' Ha') as (b & Hb & ?). exists b. split; [|done].
    by eapply lookup_weaken.
  - intros j ac st w1 st1 w2 labels y Hj Hsub Hps Hk Hb Hcl Hredl a' Ha'.
    destruct (turn_reduced_columns ndims j ac st w1 st1 w2 a' labels y)
      as (b & Hb1 & Hnarrow & Hwide); try done.
    { rewrite Hps. simpl. apply n_components_of_params_for. }
    { by eapply lookup_weaken. }
    exists b. rewrite Hps in Hwide. done.
Qed.

Lemma returned_labels_in_range acts k ndims reduce cm w cl red w' :
  predict_range L →
  cluster_activations acts k ndims reduce cm w
  = (Returned (Some (cl, red)), w') →
  Forall (Forall (λ c, 0 ≤ c < k)) cl.
Proof.
  intros Hrange Hrun.
  apply cluster_activations_returned in Hrun
    as (_ & _ & st' & Hfe & <- & _).
  apply (for_each_invariant ndims acts
    (λ _ st _, n_clusters_of (clusterer st) = k
               ∧ Forall (Forall (λ c, 0 ≤ c < k)) (separated_clusters st)))
    in Hfe as [_ Hall]; [done| |done].
  intros i ac st w1 st1 w2 _ [Hk Hold] Hb.
  apply loop_body_inr in Hb as (r & labels & f & g & m1 & -> & Hfp & _).
  simpl. split; [done|].
  apply Forall_app. split; [done|].
  apply Forall_singleton. rewrite Hk in Hfp. by eapply Hrange.
Qed.

(** C7: with supported method names the call either raises or returns
    assignments in which every label is at least 0 and below
    [n_clusters]: the method hands [n_clusters] to the clusterer as given
    and returns the labels of [fit_predict] as they come. *)
Theorem cluster_ids_in_range
    (separated_activations : list loc) (n_clusters ndims : Z)
    (reduce clustering_method : string) (w : world)
    (r : pyresult (list (list Z) * list loc)) (w' : world) :
  predict_range L →
  reduce = "FastICA" ∨ reduce = "PCA" →
  clustering_method = "KMeans" →
  cluster_activations separated_activations n_clusters ndims
    reduce clustering_method w = (r, w') →
  (∃ e, r = Raised e)
  ∨ ∃ cl red,
      r = Returned (Some (cl, red))
      ∧ ∀ i labels c,
          cl !! i = Some labels → c ∈ labels → 0 ≤ c < n_clusters.
Proof.
  intros Hrange Hred -> Hrun.
  destruct (supported_call_outcome _ _ _ _ _ _ _ Hred Hrun)
    as [He | (cl & red & ->)]; [by left|].
  right. exists cl, red. split; [done|].
  intros i labels c Hi Hc.
  pose proof (returned_labels_in_range _ _ _ _ _ _ _ _ _ Hrange Hrun) as Hall.
  rewrite Forall_lookup in Hall. specialize (Hall i labels Hi).
  rewrite Forall_forall in Hall. by apply Hall.
Qed.

(** C5: a class whose matrix has at most [ndims] columns comes back as
    the very same array, with its content as it was; the projector is not
    called for that class, and the pass-through is printed. *)
Theorem low_dimensional_class_passes_through
    (separated_activations : list loc) (n_clusters ndims : Z)
    (reduce clustering_method : string) (w : world)
    (cl : list (list Z)) (red : list loc) (w' : world)
    (i : nat) (x : loc) (a : ndarray scalar) :
  leaves_arrays_intact L →
  cluster_activations separated_activations n_clusters ndims
    reduce clustering_method w = (Returned (Some (cl, red)), w') →
  separated_activations !! i = Some x →
  heap (mem w) !! x = Some a →
  Z.of_nat (ncols a) ≤ ndims →
  red !! i = Some x
  ∧ heap (mem w') !! x = Some a
  ∧ ∃ evs, trace w' = trace w ++ evs
           ∧ Print (not_applying_notice (ncols a) ndims) ∈ evs
           ∧ ∀ y, FitTransformCall i y ∉ evs.
Proof.
  intros HL Hrun Hi Ha Hd.
  apply cluster_activations_returned in Hrun
    as (_ & _ & st' & Hfe & <- & <-).
  pose proof Hfe as Hfe1. pose proof Hfe as Hfe2.
  apply (for_each_frame ndims reduce clustering_method) in Hfe1 as [Hsub _];
    [|done].
  split; [|split; [by eapply lookup_weaken|]].
  - apply (for_each_pointwise ndims separated_activations _ w st' w'
      (λ _ ac _ r, ∀ a, heap (mem w) !! ac = Some a →
                        Z.of_nat (ncols a) ≤ ndims → r = ac) HL)
      in Hfe as (_ & _ & Hall); [|done| |done|done].
    + destruct (Hall i x Hi) as (labels & r & _ & Hr & HR).
      by rewrite (HR a Ha Hd) in Hr.
    + intros j ac st w1 st1 w2 labels r Hj Hsub1 _ _ Hb _ Hred a' Ha' Hd'.
      apply loop_body_inr in Hb as (r' & ? & ? & ? & ? & -> & _ & Hcase).
      simpl in Hred. apply app_inj_tail in Hred as [_ <-].
      rewrite (lookup_total_correct _ ac a') in Hcase
        by by eapply lookup_weaken.
      destruct Hcase as [(? & _) | (_ & -> & _)]; [lia|done].
  - apply (for_each_invariant ndims separated_activations
      (λ j _ w1, heap (mem w) ⊆ heap (mem w1)
         ∧ ∃ evs, trace w1 = trace w ++ evs
             ∧ (∀ y, FitTransformCall i y ∉ evs)
             ∧ ((i < j)%nat →
                Print (not_applying_notice (ncols a) ndims) ∈ evs)))
      in Hfe2 as (_ & evs & Ht & Hno & Hyes).
    + exists evs. split; [done|]. split; [|done].
      apply Hyes. by eapply lookup_lt_Some.
    + intros j ac st w1 st1 w2 Hj (Hsub1 & evs & Ht & Hno & Hyes) Hb.
      split; [etrans; [done|by eapply loop_body_heap]|].
      apply loop_body_inr in Hb as (r & ? & ? & ? & ? & _ & _ & Hcase).
      destruct (decide (j = i)) as [->|Hne].
      * assert (ac = x) as -> by congruence.
        rewrite (lookup_total_correct _ x a) in Hcase
          by by eapply lookup_weaken.
        destruct Hcase as [(? & _) | (_ & _ & _ & _ & Ht2)]; [lia|].
        eexists. split; [by rewrite Ht2, Ht, <- app_assoc|].
        split.
        -- intros y [Hin|Hin]%elem_of_app; [by eapply Hno|].
           apply elem_of_cons in Hin as [?|Hin]; [done|].
           by apply list_elem_of_singleton in Hin.
        -- intros _. apply elem_of_app. right. by left.
      * destruct Hcase as [(_ & _ & Ht2) | (_ & _ & _ & _ & Ht2)];
          (eexists; split; [by rewrite Ht2, Ht, <- app_assoc|]);
          (split;
           [ intros y [Hin|Hin]%elem_of_app; [by eapply Hno|];
             apply elem_of_cons in Hin as [?|Hin]; [congruence|];
             by apply list_elem_of_singleton in Hin
           | intros Hlt; apply elem_of_app; left; apply Hyes; lia ]).
    + split; [done|]. exists []. rewrite app_nil_r.
      split; [done|]. split; [by intros y ?%elem_of_nil|lia].
Qed.

End Classes.

(** ** One estimator for all classes, or a fresh one per class *)
Section Factory.
Context {L : Sklearn}.

Lemma refit_transform ps f f' x m :
  seen L (sk_fit_transform ps f x m) = seen L (sk_fit_transform ps f' x m) →
  match sk_fit_transform ps f x m, sk_fit_transform ps f' x m with
  | (inl e, m1), (inl e', m1') => e = e' ∧ m1 = m1'
  | (inr (_, y), m1), (inr (_, y'), m1') => y = y' ∧ m1 = m1'
  | _, _ => False
  end.
Proof.
  unfold seen.
  destruct (sk_fit_transform ps f x m) as [[e|[f1 y]] m1],
           (sk_fit_transform ps f' x m) as [[e'|[f1' y']] m1'];
    simpl; intros H; by simplify_eq.
Qed.

Lemma refit_predict k g g' x m :
  seen L (sk_fit_predict k g x m) = seen L (sk_fit_predict k g' x m) →
  match sk_fit_predict k g x m, sk_fit_predict k g' x m with
  | (inl e, m1), (inl e', m1') => e = e' ∧ m1 = m1'
  | (inr (_, ls), m1), (inr (_, ls'), m1') => ls = ls' ∧ m1 = m1'
  | _, _ => False
  end.
Proof.
  unfold seen.
  destruct (sk_fit_predict k g x m) as [[e|[g1 ls]] m1],
           (sk_fit_predict k g' x m) as [[e'|[g1' ls']] m1'];
    simpl; intros H; by simplify_eq.
Qed.

(** A turn of the method, with estimators whose earlier fits are of no
    consequence to a new fit, does what a turn with new estimators of the
    same configuration does. *)
Lemma loop_body_factory_eq ps k ndims i ac st w :
  proj_params (projector st) = ps →
  n_clusters_of (clusterer st) = k →
  (∀ x m, seen L (sk_fit_transform ps (proj_attrs (projector st)) x m)
          = seen L (sk_fit_transform ps unfitted_projector x m)) →
  (∀ x m, seen L (sk_fit_predict k (clus_attrs (clusterer st)) x m)
          = seen L (sk_fit_predict k unfitted_clusterer x m)) →
  match loop_body_factory ps k ndims i ac w with
  | (inl e, w2) => loop_body ndims i ac st w = (inl e, w2)
  | (inr (labels, r), w2) =>
      ∃ st', loop_body ndims i ac st w = (inr st', w2)
             ∧ proj_params (projector st') = ps
             ∧ n_clusters_of (clusterer st') = k
             ∧ separated_clusters st' = separated_clusters st ++ [labels]
             ∧ separated_reduced_activations st'
               = separated_reduced_activations st ++ [r]
  end.
Proof.
  intros Hps Hk Hft Hfp.
  rewrite loop_body_run, reduce_step_run. cbv zeta.
  unfold loop_body_factory. cbv zeta.
  destruct (_ >? _).
  - rewrite fit_transform_run. rewrite Hps.
    pose proof (refit_transform ps (proj_attrs (projector st))
                  unfitted_projector ac (mem w) (Hft _ _)) as Ht.
    destruct (sk_fit_transform ps (proj_attrs (projector st)) ac (mem w))
      as [[e|[f1 y]] m1],
      (sk_fit_transform ps unfitted_projector ac (mem w))
      as [[e'|[f1' y']] m1']; try done; destruct Ht as [<- <-]; [done|].
    rewrite fit_predict_run; simpl. rewrite Hk.
    pose proof (refit_predict k (clus_attrs (clusterer st))
                  unfitted_clusterer y m1 (Hfp _ _)) as Hp.
    destruct (sk_fit_predict k (clus_attrs (clusterer st)) y m1)
      as [[e|[g1 ls]] m2],
      (sk_fit_predict k unfitted_clusterer y m1)
      as [[e'|[g1' ls']] m2']; try done; destruct Hp as [<- <-];
      rewrite <- app_assoc; simpl; [done|].
    eexists. by repeat split.
  - rewrite fit_predict_run; simpl. rewrite Hk.
    pose proof (refit_predict k (clus_attrs (clusterer st))
                  unfitted_clusterer ac (mem w) (Hfp _ _)) as Hp.
    destruct (sk_fit_predict k (clus_attrs (clusterer st)) ac (mem w))
      as [[e|[g1 ls]] m2],
      (sk_fit_predict k unfitted_clusterer ac (mem w))
      as [[e'|[g1' ls']] m2']; try done; destruct Hp as [<- <-];
      rewrite <- app_assoc; simpl; [done|].
    eexists. by repeat split.
Qed.

Lemma for_each_factory_eq ps k ndims acs i st w :
  refits L →
  proj_params (projector st) = ps →
  n_clusters_of (clusterer st) = k →
  match for_each_factory ps k ndims i acs w with
  | (inl e, w') => for_each ndims i acs st w = (inl e, w')
  | (inr (cl, red), w') =>
      ∃ st', for_each ndims i acs st w = (inr st', w')
             ∧ separated_clusters st' = separated_clusters st ++ cl
             ∧ separated_reduced_activations st'
               = separated_reduced_activations st ++ red
  end.
Proof.
  intros [Hft Hfp]. revert i st w.
  induction acs as [|ac acs IH]; intros i st w Hps Hk; simpl.
  - exists st. by rewrite !app_nil_r.
  - unfold bind.
    pose proof (loop_body_factory_eq ps k ndims i ac st w Hps Hk
                  (λ x m, Hft ps _ _ x m) (λ x m, Hfp k _ _ x m)) as Hturn.
    destruct (loop_body_factory ps k ndims i ac w) as [[e|[labels r]] w1].
    + by rewrite Hturn.
    + destruct Hturn as (st1 & -> & Hps1 & Hk1 & Hcl1 & Hred1).
      specialize (IH (S i) st1 w1 Hps1 Hk1).
      destruct (for_each_factory ps k ndims (S i) acs w1)
        as [[e|[cl red]] w2]; [done|].
      destruct IH as (st' & -> & Hcl & Hred).
      exists st'. rewrite Hcl, Hred, Hcl1, Hred1, <- !app_assoc. done.
Qed.

(** C8, as the code has it: what a turn yields for a class depends on the
    memory in which the class is reached (earlier classes have advanced
    the random source), not on the class matrix and the configuration
    alone.  When a fit starts from scratch, it does not depend on what
    earlier fits left in the two estimators: a turn of the method adds
    exactly the labels and the array that a new projector and a new
    clusterer of the same configuration yield in that state, with the same
    memory and trace afterwards; and the method, which keeps one projector
    and one clusterer for all classes, gives the same result, memory and
    trace as the variant that builds a new pair for every class. *)
Theorem one_instance_equals_fresh_instances
    (separated_activations : list loc) (n_clusters ndims : Z)
    (reduce clustering_method : string) (w : world) :
  refits L →
  (∀ i ac st w1,
      proj_params (projector st) = params_for reduce ndims →
      n_clusters_of (clusterer st) = n_clusters →
      match loop_body_factory (params_for reduce ndims) n_clusters ndims
              i ac w1 with
      | (inl e, w2) => loop_body ndims i ac st w1 = (inl e, w2)
      | (inr (labels, r), w2) =>
          ∃ st', loop_body ndims i ac st w1 = (inr st', w2)
                 ∧ separated_clusters st' = separated_clusters st ++ [labels]
                 ∧ separated_reduced_activations st'
                   = separated_reduced_activations st ++ [r]
      end)
  ∧ cluster_activations separated_activations n_clusters ndims
      reduce clustering_method w
    = cluster_activations_factory separated_activations n_clusters ndims
        reduce clustering_method w.
Proof.
  intros Hrefit. split.
  - intros i ac st w1 Hps Hk. destruct Hrefit as [Hft Hfp].
    pose proof (loop_body_factory_eq (params_for reduce ndims) n_clusters
                  ndims i ac st w1 Hps Hk
                  (λ x m, Hft _ _ _ x m) (λ x m, Hfp _ _ _ x m)) as Hturn.
    destruct (loop_body_factory _ _ _ _ _ _) as [[e|[labels r]] w2]; [done|].
    destruct Hturn as (st' & ? & _ & _ & ? & ?). by exists st'.
  - unfold cluster_activations_factory.
    destruct (decide (reduce = "FastICA" ∨ reduce = "PCA")) as [Hred|Hred].
    + rewrite cluster_activations_supported by done.
      unfold cluster_with. case_decide; [|done].
      pose proof (for_each_factory_eq (params_for reduce ndims) n_clusters
                    ndims separated_activations 0
                    (Locals (MkProjector (params_for reduce ndims)
                               unfitted_projector) (KMeans n_clusters) [] []) w
                    Hrefit eq_refl eq_refl) as Heq.
      destruct (for_each_factory _ _ _ _ _ _) as [[e|[cl red]] w1].
      * by rewrite Heq.
      * destruct Heq as (st' & -> & -> & ->). done.
    + unfold cluster_activations.
      rewrite decide_False by by intros ->; apply Hred; left.
      rewrite decide_False by by intros ->; apply Hred; right.
      done.
Qed.

End Factory.
(** ** Worked runs on the executable library *)
Section Runs.

Lemma empty_class_list_returns_empty_lists_witness :
  cluster_activations (L := Stub.sklearn) [] 2 10 "FastICA" "KMeans"
    (Stub.start 0)
  = (Returned (Some ([], [])), Stub.start 0).
Proof.
  apply (empty_class_list_returns_empty_lists (L := Stub.sklearn)
           2 10 "FastICA" "KMeans" (Stub.start 0)).
  - by left.
  - reflexivity.
Defined.

(** The call with [reduce="bogus"] returns [None]; it raises nothing. *)
Lemma unsupported_reduce_is_not_an_error :
  (cluster_activations (L := Stub.sklearn) [0%nat; 1%nat] 2 3
     "bogus" "KMeans" (Stub.start 0)).1 = Returned None
  ∧ ∀ e, (cluster_activations (L := Stub.sklearn) [0%nat; 1%nat] 2 3
            "bogus" "KMeans" (Stub.start 0)).1 ≠ Raised e.
Proof.
  split; [vm_compute; reflexivity|]. intros e. vm_compute. discriminate.
Qed.

Lemma unsupported_method_prints_and_returns_none_witness :
  cluster_activations (L := Stub.sklearn) [0%nat; 1%nat] 2 3
    "bogus" "KMeans" (Stub.start 0)
  = (Returned None,
     World (Memory Stub.arrays 0%nat)
       [Print "bogus dimensionality reduction method not supported."]).
Proof.
  etrans.
  - apply (unsupported_method_prints_and_returns_none (L := Stub.sklearn)
             [0%nat; 1%nat] 2 3 "bogus" "KMeans" (Stub.start 0)).
    left. split; discriminate.
  - vm_compute. reflexivity.
Defined.

(** Three rows and [n_clusters=5]: the call raises the clusterer's own
    [ValueError], the very exception [fit_predict] raises on that array. *)
Lemma too_few_rows_raises_the_library_error :
  (cluster_activations (L := Stub.sklearn) [0%nat] 5 3 "PCA" "KMeans"
     (Stub.start 0)).1
  = Raised (Exn "ValueError" "n_samples=3 should be >= n_clusters=5")
  ∧ (Stub.stub_fit_predict 5 0 0 (Memory Stub.arrays 0%nat)).1
    = inl (Exn "ValueError" "n_samples=3 should be >= n_clusters=5")
  ∧ "ValueError" ≠ "InsufficientDataError".
Proof. repeat split; try (vm_compute; reflexivity). discriminate. Qed.

Lemma library_error_propagates_witness :
  (cluster_activations (L := Stub.sklearn) ([0%nat] ++ 2%nat :: [0%nat]) 3 5
     "PCA" "KMeans" (Stub.start 0)).1
  = Raised (Exn "ValueError" "n_samples=2 should be >= n_clusters=3").
Proof.
  edestruct (library_error_propagates (L := Stub.sklearn)
               [0%nat] 2%nat [0%nat] 3 5 "PCA" (Stub.start 0)) as [Hrun _].
  - by right.
  - vm_compute. reflexivity.
  - vm_compute. reflexivity.
  - rewrite Hrun. reflexivity.
Defined.

(** A call on a class with two columns and [ndims=3] writes a line to
    standard output. *)
Lemma pass_through_prints :
  stdout (trace (cluster_activations (L := Stub.sklearn) [0%nat; 1%nat] 2 3
                   "PCA" "KMeans" (Stub.start 0)).2)
  = ["Dimensionality of activations = 2 less than ndims = 3. Not applying dimensionality reduction..."]
  ∧ stdout (trace (cluster_activations (L := Stub.sklearn) [0%nat; 1%nat] 2 3
                     "PCA" "KMeans" (Stub.start 0)).2) ≠ [].
Proof. split; vm_compute; [reflexivity|discriminate]. Qed.

Lemma arrays_unchanged_and_output_is_notices_witness :
  ∃ r w',
    cluster_activations (L := Stub.sklearn) [0%nat; 1%nat] 2 3 "PCA" "KMeans"
      (Stub.start 0) = (r, w')
    ∧ (∀ x a, Stub.arrays !! x = Some a → heap (mem w') !! x = Some a)
    ∧ ∃ evs, trace w' = [] ++ evs
             ∧ Forall (method_event 3 "PCA" "KMeans") evs.
Proof.
  eexists _, _. split; [vm_compute; reflexivity|].
  eapply (arrays_unchanged_and_output_is_notices (L := Stub.sklearn)
            [0%nat; 1%nat] 2 3 "PCA" "KMeans" (Stub.start 0)).
  - apply stub_leaves_arrays_intact.
  - vm_compute. reflexivity.
Defined.

(** One class of three rows and two columns, supported method names and
    [n_clusters=4]: no class matrix is empty, and the call raises instead
    of returning two lists. *)
Lemma nonempty_classes_do_not_make_the_call_return :
  Stub.arrays !! 0%nat = Some (NdArray 3 2 [1; 2; 3; 4; 5; 6])
  ∧ (cluster_activations (L := Stub.sklearn) [0%nat] 4 3 "PCA" "KMeans"
       (Stub.start 0)).1
    = Raised (Exn "ValueError" "n_samples=3 should be >= n_clusters=4")
  ∧ ∀ cl red,
      (cluster_activations (L := Stub.sklearn) [0%nat] 4 3 "PCA" "KMeans"
         (Stub.start 0)).1 ≠ Returned (Some (cl, red)).
Proof.
  split; [reflexivity|]. split; [vm_compute; reflexivity|].
  intros cl red. vm_compute. discriminate.
Qed.

Lemma result_shapes_match_input_witness :
  ∃ cl red w',
    cluster_activations (L := Stub.sklearn) [0%nat; 1%nat] 2 3 "PCA" "KMeans"
      (Stub.start 0) = (Returned (Some (cl, red)), w')
    ∧ length cl = 2%nat ∧ length red = 2%nat
    ∧ ∀ i x a,
        [0%nat; 1%nat] !! i = Some x → Stub.arrays !! x = Some a →
        ∃ labels y b,
          cl !! i = Some labels ∧ red !! i = Some y
          ∧ heap (mem w') !! y = Some b
          ∧ length labels = nrows a ∧ nrows b = nrows a.
Proof.
  eassert (Hrun : cluster_activations (L := Stub.sklearn) [0%nat; 1%nat] 2 3
                    "PCA" "KMeans" (Stub.start 0)
                  = (Returned (Some (_, _)), _))
    by (vm_compute; reflexivity).
  destruct (result_shapes_match_input (L := Stub.sklearn)
              [0%nat; 1%nat] 2 3 "PCA" "KMeans" (Stub.start 0) _ _
              stub_leaves_arrays_intact stub_transform_rows
              stub_predict_shape (or_intror eq_refl) eq_refl Hrun)
    as [[e He] | (cl & red & Heq & Hshapes)].
  - discriminate He.
  - injection Heq as <- <-. eexists _, _, _. split; [exact Hrun|].
    exact Hshapes.
Defined.

Lemma low_dimensional_class_passes_through_witness :
  ∃ cl red w',
    cluster_activations (L := Stub.sklearn) [0%nat; 1%nat] 2 3 "PCA" "KMeans"
      (Stub.start 0) = (Returned (Some (cl, red)), w')
    ∧ red !! 0%nat = Some 0%nat
    ∧ heap (mem w') !! 0%nat = Some (NdArray 3 2 [1; 2; 3; 4; 5; 6])
    ∧ ∃ evs, trace w' = [] ++ evs
             ∧ Print (not_applying_notice 2 3) ∈ evs
             ∧ ∀ y, FitTransformCall 0 y ∉ evs.
Proof.
  eexists _, _, _. split; [vm_compute; reflexivity|].
  apply (low_dimensional_class_passes_through (L := Stub.sklearn)
           [0%nat; 1%nat] 2 3 "PCA" "KMeans" (Stub.start 0)
           [[0; 1; 0]; [1; 0; 1]]).
  - apply stub_leaves_arrays_intact.
  - vm_compute. reflexivity.
  - reflexivity.
  - reflexivity.
  - simpl. lia.
Defined.

(** One class of two rows and four columns, FastICA and [ndims=3]: the
    call returns, and the reduced matrix has two columns, where
    [min(ndims, 4)] is three. *)
Lemma fastica_keeps_fewer_columns_than_ndims :
  Stub.arrays !! 2%nat = Some (NdArray 2 4 [1; 2; 3; 4; 5; 6; 7; 8])
  ∧ (cluster_activations (L := Stub.sklearn) [2%nat] 2 3 "FastICA" "KMeans"
       (Stub.start 0)).1
    = Returned (Some ([[0; 1]], [3%nat]))
  ∧ heap (mem (cluster_activations (L := Stub.sklearn) [2%nat] 2 3
                 "FastICA" "KMeans" (Stub.start 0)).2) !! 3%nat
    = Some (NdArray 2 2 [1; 2; 5; 6])
  ∧ Z.of_nat (ncols (NdArray 2 2 [1; 2; 5; 6]))
    ≠ Z.min 3 (Z.of_nat (ncols (NdArray 2 4 [1; 2; 3; 4; 5; 6; 7; 8]))).
Proof.
  split; [reflexivity|]. split; [vm_compute; reflexivity|].
  split; [vm_compute; reflexivity|]. simpl. lia.
Qed.

Lemma reduced_column_count_witness :
  ∃ cl red w' y b,
    cluster_activations (L := Stub.sklearn) [0%nat; 2%nat] 2 3
      "FastICA" "KMeans" (Stub.start 0) = (Returned (Some (cl, red)), w')
    ∧ red !! 1%nat = Some y ∧ heap (mem w') !! y = Some b
    ∧ Z.of_nat (ncols b) = Z.min 3 2.
Proof.
  eassert (Hrun : cluster_activations (L := Stub.sklearn) [0%nat; 2%nat] 2 3
                    "FastICA" "KMeans" (Stub.start 0)
                  = (Returned (Some (_, _)), _))
    by (vm_compute; reflexivity).
  destruct (reduced_column_count (L := Stub.sklearn)
              [0%nat; 2%nat] 2 3 "FastICA" "KMeans" (Stub.start 0) _ _ _
              1%nat 2%nat (NdArray 2 4 [1; 2; 3; 4; 5; 6; 7; 8])
              stub_leaves_arrays_intact stub_transform_columns
              Hrun eq_refl eq_refl)
    as (y & b & Hy & Hb & _ & Hwide).
  destruct Hwide as (_ & _ & Hica); [simpl; lia|lia|].
  eexists _, _, _, y, b. split; [exact Hrun|].
  split; [exact Hy|]. split; [exact Hb|]. exact (Hica eq_refl).
Defined.

Lemma cluster_ids_in_range_witness :
  ∃ cl red w',
    cluster_activations (L := Stub.sklearn) [0%nat; 1%nat] 2 3 "PCA" "KMeans"
      (Stub.start 0) = (Returned (Some (cl, red)), w')
    ∧ ∀ i labels c, cl !! i = Some labels → c ∈ labels → 0 ≤ c < 2.
Proof.
  eassert (Hrun : cluster_activations (L := Stub.sklearn) [0%nat; 1%nat] 2 3
                    "PCA" "KMeans" (Stub.start 0)
                  = (Returned (Some (_, _)), _))
    by (vm_compute; reflexivity).
  destruct (cluster_ids_in_range (L := Stub.sklearn)
              [0%nat; 1%nat] 2 3 "PCA" "KMeans" (Stub.start 0) _ _
              stub_predict_range (or_intror eq_refl) eq_refl Hrun)
    as [[e He] | (cl & red & Heq & Hrange)].
  - discriminate He.
  - injection Heq as <- <-. eexists _, _, _. split; [exact Hrun|].
    exact Hrange.
Defined.

(** The 3 x 4 class at address 1, with the same configuration: its labels
    are [0; 1; 0] when it is the only class, and [1; 0; 1] when the class
    at address 0 has been clustered before it. *)
Lemma labels_of_a_class_depend_on_the_classes_before_it :
  (cluster_activations (L := Stub.sklearn) [1%nat] 2 3 "PCA" "KMeans"
     (Stub.start 0)).1
  = Returned (Some ([[0; 1; 0]], [3%nat]))
  ∧ (cluster_activations (L := Stub.sklearn) [0%nat; 1%nat] 2 3
       "PCA" "KMeans" (Stub.start 0)).1
    = Returned (Some ([[0; 1; 0]; [1; 0; 1]], [0%nat; 3%nat]))
  ∧ [0; 1; 0] ≠ [1; 0; 1].
Proof. repeat split; try (vm_compute; reflexivity). discriminate. Qed.

Lemma one_instance_equals_fresh_instances_witness :
  cluster_activations (L := Stub.sklearn) [0%nat; 1%nat] 2 3 "PCA" "KMeans"
    (Stub.start 0)
  = cluster_activations_factory (L := Stub.sklearn) [0%nat; 1%nat] 2 3
      "PCA" "KMeans" (Stub.start 0).
Proof.
  apply (one_instance_equals_fresh_instances (L := Stub.sklearn)
           [0%nat; 1%nat] 2 3 "PCA" "KMeans" (Stub.start 0)).
  apply stub_refits.
Defined.

End Runs.

(** ** What a run looks like from outside, whatever the library does *)
Section Structure.
Context {L : Sklearn}.

Lemma predict_calls_app t1 t2 :
  predict_calls (t1 ++ t2) = predict_calls t1 ++ predict_calls t2.
Proof. apply omap_app. Qed.

Lemma transform_calls_app t1 t2 :
  transform_calls (t1 ++ t2) = transform_calls t1 ++ transform_calls t2.
Proof. apply omap_app. Qed.

Lemma stdout_app t1 t2 : stdout (t1 ++ t2) = stdout t1 ++ stdout t2.
Proof. apply omap_app. Qed.

Lemma enumerate_from_app {A} i (l1 l2 : list A) :
  enumerate_from i (l1 ++ l2)
  = enumerate_from i l1 ++ enumerate_from (i + length l1) l2.
Proof.
  revert i. induction l1 as [|x l1 IH]; intros i; simpl.
  - by rewrite Nat.add_0_r.
  - rewrite IH. by replace (S i + length l1)%nat with (i + S (length l1))%nat by lia.
Qed.

(** A run of the loop that completes appends one label list and one array
    per class, and calls [fit_predict] once per class, in order, on the
    array it appends. *)
Lemma for_each_appends ndims acs i st w st' w' :
  for_each ndims i acs st w = (inr st', w') →
  ∃ cs rs evs,
    separated_clusters st' = separated_clusters st ++ cs
    ∧ separated_reduced_activations st'
      = separated_reduced_activations st ++ rs
    ∧ length cs = length acs ∧ length rs = length acs
    ∧ trace w' = trace w ++ evs
    ∧ predict_calls evs = enumerate_from i rs.
Proof.
  revert i st w. induction acs as [|ac acs IH]; intros i st w; simpl.
  - unfold ret. intros [= <- <-]. exists [], [], [].
    by rewrite !app_nil_r.
  - unfold bind.
    destruct (loop_body _ _ _ _ _) as [[e|st1] w1] eqn:Hb; [done|].
    intros Hrun.
    destruct (IH _ _ _ Hrun) as (cs & rs & evs & Hcs & Hrs & Hlc & Hlr & Ht & Hp).
    apply loop_body_inr in Hb
      as (r & labels & f & g & m1 & -> & _ & Hcase).
    simpl in Hcs, Hrs.
    assert (Hev : ∃ evs1, trace w1 = trace w ++ evs1
                          ∧ predict_calls evs1 = [(i, r)]).
    { destruct Hcase as [(_ & _ & Ht1) | (_ & -> & _ & _ & Ht1)];
        eexists; (split; [exact Ht1|reflexivity]). }
    destruct Hev as (evs1 & Ht1 & Hp1).
    exists (labels :: cs), (r :: rs), (evs1 ++ evs).
    rewrite Hcs, Hrs, Ht, Ht1, <- !app_assoc. simpl.
    split; [done|]. split; [done|]. split; [lia|]. split; [lia|].
    split; [done|].
    by rewrite predict_calls_app, Hp1, Hp.
Qed.

Lemma cluster_activations_raised acts k ndims reduce cm w e w' :
  cluster_activations acts k ndims reduce cm w = (Raised e, w') →
  (reduce = "FastICA" ∨ reduce = "PCA") ∧ cm = "KMeans" ∧
  for_each ndims 0 acts
    (Locals (MkProjector (params_for reduce ndims) unfitted_projector)
       (KMeans k) [] []) w = (inl e, w').
Proof.
  intros Hrun.
  assert (Hred : reduce = "FastICA" ∨ reduce = "PCA").
  { revert Hrun. unfold cluster_activations, print, emit.
    repeat case_decide; auto. done. }
  split; [done|].
  rewrite cluster_activations_supported in Hrun by done.
  unfold cluster_with, print, emit in Hrun.
  case_decide; [|done]. split; [done|].
  destruct (for_each _ _ _ _ _) as [[e1|st'] w1]; [|done].
  by injection Hrun as <- <-.
Qed.

(** X1: the call returns [None] exactly when [reduce] or
    [clustering_method] is not a supported name (the comparison is exact,
    so a name in another case is unsupported); with supported names it
    returns a pair of lists or raises. *)
Theorem returns_none_iff_a_name_is_unsupported
    (separated_activations : list loc) (n_clusters ndims : Z)
    (reduce clustering_method : string) (w : world) :
  (cluster_activations separated_activations n_clusters ndims
     reduce clustering_method w).1 = Returned None
  ↔ ¬ ((reduce = "FastICA" ∨ reduce = "PCA")
       ∧ clustering_method = "KMeans").
Proof.
  split.
  - intros Hnone [Hred ->]. revert Hnone.
    rewrite cluster_activations_supported by done.
    unfold cluster_with. rewrite decide_True by done.
    by destruct (for_each _ _ _ _ _) as [[e|st] w1].
  - intros Hbad.
    destruct (decide (reduce = "FastICA" ∨ reduce = "PCA")) as [Hred|Hred].
    + rewrite cluster_activations_supported by done.
      unfold cluster_with.
      destruct (decide (clustering_method = "KMeans")) as [Hk|Hk]; [|done].
      by destruct Hbad.
    + unfold cluster_activations.
      rewrite decide_False by by intros ->; apply Hred; left.
      rewrite decide_False by by intros ->; apply Hred; right.
      done.
Qed.

(** X2: whenever the call returns a pair, both lists have exactly one
    entry per class, whatever the library returned for the classes. *)
Theorem returned_lists_have_one_entry_per_class
    (separated_activations : list loc) (n_clusters ndims : Z)
    (reduce clustering_method : string) (w : world)
    (cl : list (list Z)) (red : list loc) (w' : world) :
  cluster_activations separated_activations n_clusters ndims
    reduce clustering_method w = (Returned (Some (cl, red)), w') →
  length cl = length separated_activations
  ∧ length red = length separated_activations.
Proof.
  intros Hrun.
  apply cluster_activations_returned in Hrun
    as (_ & _ & st' & Hfe & <- & <-).
  apply for_each_appends in Hfe
    as (cs & rs & evs & -> & -> & Hlc & Hlr & _).
  done.
Qed.

(** X3: the classes after a prefix play no part in what the prefix
    yields.  If the call on [acs1 ++ acs2] returns, the call on [acs1]
    alone returns the first [len(acs1)] entries of both lists; and if the
    call on [acs1] raises, the call on [acs1 ++ acs2] raises the same
    exception in the same state, the classes of [acs2] never being
    looked at. *)
Theorem later_classes_do_not_affect_earlier_ones
    (acs1 acs2 : list loc) (n_clusters ndims : Z)
    (reduce clustering_method : string) (w : world) :
  (∀ cl red w',
      cluster_activations (acs1 ++ acs2) n_clusters ndims
        reduce clustering_method w = (Returned (Some (cl, red)), w') →
      ∃ w1,
        cluster_activations acs1 n_clusters ndims reduce clustering_method w
        = (Returned (Some (take (length acs1) cl, take (length acs1) red)),
           w1))
  ∧ (∀ e w1,
      cluster_activations acs1 n_clusters ndims reduce clustering_method w
      = (Raised e, w1) →
      cluster_activations (acs1 ++ acs2) n_clusters ndims
        reduce clustering_method w = (Raised e, w1)).
Proof.
  split.
  - intros cl red w' Hrun.
    apply cluster_activations_returned in Hrun
      as (Hred & -> & st' & Hfe & <- & <-).
    rewrite for_each_app in Hfe.
    destruct (for_each ndims 0 acs1 _ w) as [[e|st1] w1] eqn:Hfe1; [done|].
    exists w1.
    rewrite cluster_activations_supported by done.
    unfold cluster_with. rewrite decide_True by done. rewrite Hfe1.
    apply for_each_appends in Hfe1
      as (cs1 & rs1 & evs1 & Hcs1 & Hrs1 & Hlc1 & Hlr1 & _).
    apply for_each_appends in Hfe
      as (cs2 & rs2 & evs2 & -> & -> & _).
    simpl in Hcs1, Hrs1. rewrite Hcs1, Hrs1.
    rewrite <- Hlc1 at 1. rewrite <- Hlr1.
    by rewrite !take_app_length.
  - intros e w1 Hrun.
    apply cluster_activations_raised in Hrun as (Hred & -> & Hfe).
    rewrite cluster_activations_supported by done.
    unfold cluster_with. rewrite decide_True by done.
    by rewrite for_each_app, Hfe.
Qed.


(** A run of the loop that completes is the library processing the
    classes in turn, from the memory and the attributes the loop starts
    with. *)
Lemma for_each_processed ndims acs i st w st' w' :
  for_each ndims i acs st w = (inr st', w') →
  ∃ cs rs,
    separated_clusters st' = separated_clusters st ++ cs
    ∧ separated_reduced_activations st'
      = separated_reduced_activations st ++ rs
    ∧ processed (proj_params (projector st)) (n_clusters_of (clusterer st))
        ndims acs (proj_attrs (projector st)) (clus_attrs (clusterer st))
        (mem w) cs rs (mem w').
Proof.
  revert i st w. induction acs as [|ac acs IH]; intros i st w; simpl.
  - unfold ret. intros [= <- <-]. exists [], [].
    rewrite !app_nil_r. repeat split. constructor.
  - unfold bind.
    destruct (loop_body _ _ _ _ _) as [[e|st1] w1] eqn:Hb; [done|].
    intros Hrun.
    destruct (IH _ _ _ Hrun) as (cs & rs & Hcs & Hrs & Hproc).
    apply loop_body_inr in Hb
      as (r & labels & f & g & m1 & -> & Hfp & Hcase).
    simpl in Hcs, Hrs, Hproc.
    exists (labels :: cs), (r :: rs).
    rewrite Hcs, Hrs, <- !app_assoc. split; [done|]. split; [done|].
    destruct Hcase as [(Hd & Hft & _) | (Hd & -> & -> & -> & _)].
    + by eapply processed_wide.
    + by eapply processed_narrow.
Qed.

(** Conversely, when the library processes the classes without raising,
    the loop completes with what the library returned. *)
Lemma processed_for_each ps k ndims acs f g m cs rs m' :
  processed ps k ndims acs f g m cs rs m' →
  ∀ i cl red t,
    ∃ st' t',
      for_each ndims i acs
        (Locals (MkProjector ps f) (MkClusterer k g) cl red) (World m t)
      = (inr st', World m' t')
      ∧ separated_clusters st' = cl ++ cs
      ∧ separated_reduced_activations st' = red ++ rs.
Proof.
  induction 1 as [f g m
                 |ac acs f g m g1 labels m1 cs rs m' Hd Hfp _ IH
                 |ac acs f g m f1 y m1 g1 labels m2 cs rs m' Hd Hft Hfp _ IH];
    intros i cl red t; simpl.
  - eexists _, _. unfold ret. by rewrite !app_nil_r.
  - unfold bind. rewrite loop_body_run, reduce_step_run. cbv zeta. simpl.
    destruct (Z.gtb_spec (Z.of_nat (ncols (heap m !!! ac))) ndims) as [?|_];
      [lia|].
    rewrite fit_predict_run. simpl. rewrite Hfp.
    destruct (IH (S i) (cl ++ [labels]) (red ++ [ac])
                (((t ++ [Print (not_applying_notice
                                  (ncols (heap m !!! ac)) ndims)])
                  ++ [FitPredictCall i ac])))
      as (st' & t' & Hrun & Hcs & Hrs).
    exists st', t'. rewrite Hrun, Hcs, Hrs, <- !app_assoc. done.
  - unfold bind. rewrite loop_body_run, reduce_step_run. cbv zeta. simpl.
    destruct (Z.gtb_spec (Z.of_nat (ncols (heap m !!! ac))) ndims) as [_|?];
      [|lia].
    rewrite fit_transform_run. simpl. rewrite Hft.
    rewrite fit_predict_run. simpl. rewrite Hfp.
    destruct (IH (S i) (cl ++ [labels]) (red ++ [y])
                ((t ++ [FitTransformCall i ac]) ++ [FitPredictCall i y]))
      as (st' & t' & Hrun & Hcs & Hrs).
    exists st', t'. rewrite Hrun, Hcs, Hrs, <- !app_assoc. done.
Qed.

(** X4: the call returns the pair [(cl, red)] and leaves memory [m']
    exactly when both method names are supported and the library, starting
    from the memory of the call with two unfitted estimators, reduces and
    clusters the classes in turn without raising.  So the labels at index
    [i] are what [fit_predict], with the [n_clusters] given, returned for
    the array at index [i] of the reduced list in the memory the run had
    reached, and that array is the class matrix itself or what
    [fit_transform], with the hyper-parameters resolved from [reduce] and
    [ndims], returned for the class matrix there. *)
Theorem labels_come_from_clustering_the_returned_array
    (separated_activations : list loc) (n_clusters ndims : Z)
    (reduce clustering_method : string) (w : world)
    (cl : list (list Z)) (red : list loc) (m' : mem_t) :
  (∃ w', cluster_activations separated_activations n_clusters ndims
           reduce clustering_method w = (Returned (Some (cl, red)), w')
         ∧ mem w' = m')
  ↔ (reduce = "FastICA" ∨ reduce = "PCA") ∧ clustering_method = "KMeans"
    ∧ processed (params_for reduce ndims) n_clusters ndims
        separated_activations unfitted_projector unfitted_clusterer
        (mem w) cl red m'.
Proof.
  split.
  - intros (w' & Hrun & <-).
    apply cluster_activations_returned in Hrun
      as (Hred & Hcm & st' & Hfe & <- & <-).
    split; [done|]. split; [done|].
    apply for_each_processed in Hfe as (cs & rs & -> & -> & Hproc).
    done.
  - intros (Hred & -> & Hproc).
    destruct (processed_for_each _ _ _ _ _ _ _ _ _ _ Hproc 0%nat [] []
                (trace w)) as (st' & t' & Hrun & Hcs & Hrs).
    exists (World m' t'). split; [|done].
    rewrite cluster_activations_supported by done.
    unfold cluster_with. rewrite decide_True by done.
    unfold KMeans. destruct w as [m t]. simpl in *.
    by rewrite Hrun, Hcs, Hrs.
Qed.

(** Which classes are reduced and which are announced, read off the
    matrices as they were when the call began. *)
Lemma for_each_calls ndims (h0 : gmap loc (ndarray scalar)) acs i st w st' w' :
  leaves_arrays_intact L →
  h0 ⊆ heap (mem w) →
  (∀ x, x ∈ acs → is_Some (h0 !! x)) →
  for_each ndims i acs st w = (inr st', w') →
  ∃ evs,
    trace w' = trace w ++ evs
    ∧ transform_calls evs = wide_classes ndims h0 (enumerate_from i acs)
    ∧ stdout evs
      = map (λ p, not_applying_notice (ncols (h0 !!! p.2)) ndims)
          (narrow_classes ndims h0 (enumerate_from i acs)).
Proof.
  intros HL. revert i st w.
  induction acs as [|ac acs IH]; intros i st w Hsub Halloc; simpl.
  - unfold ret. intros [= <- <-]. exists []. by rewrite app_nil_r.
  - unfold bind.
    destruct (loop_body _ _ _ _ _) as [[e|st1] w1] eqn:Hb; [done|].
    intros Hrun.
    pose proof (loop_body_heap _ _ _ _ _ _ _ HL Hb) as Hgrow.
    destruct (IH (S i) st1 w1) as (evs & Ht & Htc & Hout); [by etrans| |done|].
    { intros x Hx. apply Halloc. by right. }
    destruct (Halloc ac) as [a Ha]; [by left|].
    assert (Hw : heap (mem w) !!! ac = a).
    { apply lookup_total_correct. by eapply lookup_weaken. }
    assert (H0 : h0 !!! ac = a) by by apply lookup_total_correct.
    apply loop_body_inr in Hb as (r & labels & f & g & m1 & _ & _ & Hcase).
    rewrite Hw in Hcase. unfold wide_classes, narrow_classes.
    destruct Hcase as [(Hd & _ & Ht1) | (Hd & _ & _ & _ & Ht1)].
    + exists ([FitTransformCall i ac; FitPredictCall i r] ++ evs).
      rewrite Ht, Ht1, <- app_assoc. split; [done|].
      rewrite transform_calls_app, stdout_app, Htc, Hout.
      rewrite filter_cons_True by (simpl; rewrite H0; lia).
      rewrite filter_cons_False by (simpl; rewrite H0; lia).
      done.
    + exists ([Print (not_applying_notice (ncols a) ndims);
               FitPredictCall i ac] ++ evs).
      rewrite Ht, Ht1, <- app_assoc. split; [done|].
      rewrite transform_calls_app, stdout_app, Htc, Hout.
      rewrite filter_cons_False by (simpl; rewrite H0; lia).
      rewrite filter_cons_True by (simpl; rewrite H0; lia).
      simpl. by rewrite H0.
Qed.

(** X6: with a library that leaves arrays intact, a call that returns has
    entered [fit_transform] exactly for the classes whose matrix had more
    than [ndims] columns when the call began, once each, in class order,
    on the class matrix itself. *)
Theorem fit_transform_runs_exactly_on_the_wide_classes
    (separated_activations : list loc) (n_clusters ndims : Z)
    (reduce clustering_method : string) (w : world)
    (cl : list (list Z)) (red : list loc) (w' : world) :
  leaves_arrays_intact L →
  (∀ x, x ∈ separated_activations → is_Some (heap (mem w) !! x)) →
  cluster_activations separated_activations n_clusters ndims
    reduce clustering_method w = (Returned (Some (cl, red)), w') →
  ∃ evs,
    trace w' = trace w ++ evs
    ∧ transform_calls evs
      = wide_classes ndims (heap (mem w)) (enumerate separated_activations).
Proof.
  intros HL Halloc Hrun.
  apply cluster_activations_returned in Hrun
    as (_ & _ & st' & Hfe & _ & _).
  apply (for_each_calls ndims (heap (mem w))) in Hfe
    as (evs & Ht & Htc & _); [|done|done|done].
  by exists evs.
Qed.

(** X7: with a library that leaves arrays intact, what a call that
    returns has written to standard output is exactly one pass-through
    notice per class whose matrix had at most [ndims] columns, in class
    order, each giving that matrix's column count and [ndims]. *)
Theorem one_notice_per_narrow_class
    (separated_activations : list loc) (n_clusters ndims : Z)
    (reduce clustering_method : string) (w : world)
    (cl : list (list Z)) (red : list loc) (w' : world) :
  leaves_arrays_intact L →
  (∀ x, x ∈ separated_activations → is_Some (heap (mem w) !! x)) →
  cluster_activations separated_activations n_clusters ndims
    reduce clustering_method w = (Returned (Some (cl, red)), w') →
  ∃ evs,
    trace w' = trace w ++ evs
    ∧ stdout evs
      = map (λ p, not_applying_notice (ncols (heap (mem w) !!! p.2)) ndims)
          (narrow_classes ndims (heap (mem w))
             (enumerate separated_activations)).
Proof.
  intros HL Halloc Hrun.
  apply cluster_activations_returned in Hrun
    as (_ & _ & st' & Hfe & _ & _).
  apply (for_each_calls ndims (heap (mem w))) in Hfe
    as (evs & Ht & _ & Hout); [|done|done|done].
  by exists evs.
Qed.

End Structure.

(** ** The random source is the caller's *)
Section Randomness.
Context {L : Sklearn}.


End Randomness.

(** ** The framework fixtures of [conftest.py] *)
Section ConftestFacts.
Import Conftest.

Lemma supported_cases fw :
  fw ∈ art_supported_frameworks →
  fw = "keras" ∨ fw = "tensorflow" ∨ fw = "pytorch" ∨ fw = "scikitlearn".
Proof.
  unfold art_supported_frameworks. rewrite !elem_of_cons, elem_of_nil.
  tauto.
Qed.

Lemma unsupported_cases fw :
  fw ∉ art_supported_frameworks →
  fw ≠ "keras" ∧ fw ≠ "tensorflow" ∧ fw ≠ "pytorch" ∧ fw ≠ "scikitlearn".
Proof.
  unfold art_supported_frameworks. rewrite !elem_of_cons, elem_of_nil.
  tauto.
Qed.

Lemma get_mlFramework_inr given fw :
  get_mlFramework given = inr fw →
  fw = getoption given ∧ fw ∈ art_supported_frameworks.
Proof.
  unfold get_mlFramework. case_decide as Hin; [done|].
  intros [= <-]. split; [done|].
  by destruct (decide (getoption given ∈ art_supported_frameworks)).
Qed.

Section AnyClassifier.
Variable classifier : Type.

Lemma finish_filters attack (s : fixture_state classifier) l :
  (finish classifier attack s).1 = inr (Some l) →
  ∃ l0, s.1 = Bound (Some l0) ∧ l = List.filter attack l0.
Proof.
  unfold finish. destruct s as [[|[l0|]] log]; simpl; try done.
  intros [= <-]. by exists l0.
Qed.

Lemma filter_all_pass attack (l0 : list classifier) :
  Forall (λ c, attack c = true) (List.filter attack l0)
  ∧ (length (List.filter attack l0) ≤ length l0)%nat.
Proof.
  split; [|apply filter_length_le].
  apply Forall_forall. intros c Hc.
  apply list_elem_of_In in Hc. by apply filter_In in Hc as [_ ?].
Qed.

End AnyClassifier.

Section ImageFixture.
Variable classifier : Type.
Variable session : Type.
Variable image_kr : classifier.
Variable image_tf : classifier * session.
Variable image_pt : classifier.
Variable squeezed : classifier → classifier.

(** X9: for a supported framework, [_image_classifier_list] returns
    [None] exactly for scikitlearn and for a defended classifier of any
    framework but keras, and it logs a warning exactly when it returns
    [None]. *)
Theorem image_classifier_list_is_none_exactly_when_it_warns
    (fw : string) (attack : classifier → bool) (defended : bool) :
  fw ∈ art_supported_frameworks →
  ((image_classifier_list classifier session image_kr image_tf image_pt
      squeezed fw attack defended).1 = inr None
   ↔ fw = "scikitlearn" ∨ (defended = true ∧ fw ≠ "keras"))
  ∧ ((image_classifier_list classifier session image_kr image_tf image_pt
      squeezed fw attack defended).2 ≠ []
     ↔ (image_classifier_list classifier session image_kr image_tf image_pt
      squeezed fw attack defended).1 = inr None).
Proof.
  intros [-> | [-> | [-> | ->]]]%supported_cases; destruct defended; simpl;
    (split; split; [try done; intros _| try done; intros [?|[? ?]] | |];
     try done; try (by intros [=]); try (by right); try (by left)).
Qed.

(** X10: every classifier [_image_classifier_list] hands out passes the
    attack's [is_valid_classifier_type], and there is at most one. *)
Theorem image_classifiers_are_valid_for_the_attack
    (fw : string) (attack : classifier → bool) (defended : bool)
    (l : list classifier) :
  (image_classifier_list classifier session image_kr image_tf image_pt
      squeezed fw attack defended).1 = inr (Some l) →
  Forall (λ c, attack c = true) l ∧ (length l ≤ 1)%nat.
Proof.
  unfold image_classifier_list. cbv zeta.
  intros (l0 & Hs & ->)%(finish_filters classifier).
  destruct (filter_all_pass classifier attack l0) as [Hall Hlen].
  split; [done|]. etrans; [exact Hlen|].
  revert Hs. repeat case_decide; destruct defended; simpl; try done;
    by intros [= <-].
Qed.

End ImageFixture.

Section TabularFixture.
Variable classifier : Type.
Variable session : Type.
Variable tabular_kr : classifier.
Variable tabular_tf : classifier * session.
Variable tabular_pt : classifier.
Variable unclipped : classifier → classifier.
Variable scikit_list : bool → list classifier.

(** X11: [_tabular_classifier_list] filters by the attack for every
    framework but scikitlearn; for scikitlearn it returns
    [get_tabular_classifier_scikit_list(clipped=False)] as it is, without
    consulting the attack and whatever [clipped] was asked for. *)
Theorem tabular_classifiers_are_filtered_except_for_scikitlearn
    (fw : string) (attack : classifier → bool) (clipped : bool) :
  (fw ≠ "scikitlearn" →
   ∀ l, (tabular_classifier_list classifier session tabular_kr tabular_tf
           tabular_pt unclipped scikit_list fw attack clipped).1 = inr (Some l) →
        Forall (λ c, attack c = true) l ∧ (length l ≤ 1)%nat)
  ∧ (fw = "scikitlearn" →
     tabular_classifier_list classifier session tabular_kr tabular_tf
       tabular_pt unclipped scikit_list fw attack clipped
     = (inr (Some (scikit_list false)), [])).
Proof.
  split.
  - intros Hs l. unfold tabular_classifier_list. cbv zeta.
    rewrite (decide_False (P := fw = "scikitlearn")) by done.
    intros (l0 & Hl0 & ->)%(finish_filters classifier).
    destruct (filter_all_pass classifier attack l0) as [Hall Hlen].
    split; [done|]. etrans; [exact Hlen|].
    revert Hl0. repeat case_decide; destruct clipped; simpl; try done;
      by intros [= <-].
  - intros ->. by destruct clipped.
Qed.

End TabularFixture.

Section BothFixtures.
Variable classifier : Type.
Variable session : Type.
Variable image_kr : classifier.
Variable image_tf : classifier * session.
Variable image_pt : classifier.
Variable squeezed : classifier → classifier.
Variable tabular_kr : classifier.
Variable tabular_tf : classifier * session.
Variable tabular_pt : classifier.
Variable unclipped : classifier → classifier.
Variable scikit_list : bool → list classifier.

(** X8: the check in [get_mlFramework] is what keeps the classifier
    fixtures from reading an unassigned variable.  Whatever value the
    fixture lets through (the default of [pytest_addoption] among them),
    [_image_classifier_list] and [_tabular_classifier_list] return
    without raising; any other framework name is rejected by
    [get_mlFramework], and handed to the two fixtures directly it would
    make both raise [UnboundLocalError]. *)
Theorem accepted_framework_never_leaves_classifier_list_unassigned
    (given : option string) (fw : string) :
  get_mlFramework None = inr "tensorflow"
  ∧ (get_mlFramework given = inr fw →
     ∀ attack flag,
       (∃ v, (image_classifier_list classifier session image_kr image_tf image_pt
          squeezed fw attack flag).1 = inr v)
       ∧ (∃ v, (tabular_classifier_list classifier session tabular_kr tabular_tf
          tabular_pt unclipped scikit_list fw attack flag).1 = inr v))
  ∧ (fw ∉ art_supported_frameworks →
     get_mlFramework (Some fw)
     = inl (Exn "Exception" (unsupported_message fw))
     ∧ ∀ attack flag,
         (image_classifier_list classifier session image_kr image_tf image_pt
          squeezed fw attack flag).1
         = inl (unbound_local "classifier_list")
         ∧ (tabular_classifier_list classifier session tabular_kr tabular_tf
          tabular_pt unclipped scikit_list fw attack flag).1
           = inl (unbound_local "classifier_list")).
Proof.
  split; [reflexivity|]. split.
  - intros [_ Hin]%get_mlFramework_inr attack flag.
    apply supported_cases in Hin as [-> | [-> | [-> | ->]]];
      destruct flag; split; eexists; reflexivity.
  - intros Hout. split.
    + unfold get_mlFramework, getoption. simpl. by rewrite decide_True.
    + apply unsupported_cases in Hout as (Hk & Ht & Hp & Hs).
      intros attack flag.
      unfold image_classifier_list, tabular_classifier_list.
      by rewrite !decide_False.
Qed.

End BothFixtures.

End ConftestFacts.

(** ** Worked runs for the further properties *)
Section MoreRuns.

Lemma stub_start_allocated seed x :
  x ∈ [0%nat; 1%nat] → is_Some (heap (mem (Stub.start seed)) !! x).
Proof.
  intros [->|Hx]%elem_of_cons; [by eexists|].
  apply list_elem_of_singleton in Hx as ->. by eexists.
Qed.

Lemma returns_none_iff_a_name_is_unsupported_witness :
  (cluster_activations (L := Stub.sklearn) [0%nat; 1%nat] 2 3
     "pca" "KMeans" (Stub.start 0)).1 = Returned None.
Proof.
  apply (returns_none_iff_a_name_is_unsupported (L := Stub.sklearn)
           [0%nat; 1%nat] 2 3 "pca" "KMeans" (Stub.start 0)).
  intros [[Hf|Hp] _]; discriminate.
Defined.

Lemma returned_lists_have_one_entry_per_class_witness :
  ∃ cl red w',
    cluster_activations (L := Stub.sklearn) [0%nat; 1%nat] 2 3 "PCA" "KMeans"
      (Stub.start 0) = (Returned (Some (cl, red)), w')
    ∧ length cl = 2%nat ∧ length red = 2%nat.
Proof.
  eexists _, _, _. split; [vm_compute; reflexivity|].
  eapply (returned_lists_have_one_entry_per_class (L := Stub.sklearn)
            [0%nat; 1%nat] 2 3 "PCA" "KMeans" (Stub.start 0)).
  vm_compute. reflexivity.
Defined.

Lemma later_classes_do_not_affect_earlier_ones_witness :
  ∃ w1,
    cluster_activations (L := Stub.sklearn) [0%nat] 2 3 "PCA" "KMeans"
      (Stub.start 0)
    = (Returned (Some ([[0; 1; 0]], [0%nat])), w1).
Proof.
  destruct (later_classes_do_not_affect_earlier_ones (L := Stub.sklearn)
              [0%nat] [1%nat] 2 3 "PCA" "KMeans" (Stub.start 0)) as [Hpre _].
  edestruct (Hpre [[0; 1; 0]; [1; 0; 1]] [0%nat; 3%nat]) as [w1 Hw1].
  - vm_compute. reflexivity.
  - exists w1. exact Hw1.
Defined.

Lemma labels_come_from_clustering_the_returned_array_witness :
  ∃ m',
    processed (L := Stub.sklearn) (params_for "PCA" 3) 2 3 [0%nat; 1%nat]
      0%nat 0%nat (Memory Stub.arrays 0%nat)
      [[0; 1; 0]; [1; 0; 1]] [0%nat; 3%nat] m'.
Proof.
  eassert (Hrun : cluster_activations (L := Stub.sklearn) [0%nat; 1%nat] 2 3
                    "PCA" "KMeans" (Stub.start 0)
                  = (Returned (Some (_, _)), _))
    by (vm_compute; reflexivity).
  eexists.
  apply (labels_come_from_clustering_the_returned_array
           (L := Stub.sklearn) [0%nat; 1%nat] 2 3 "PCA" "KMeans"
           (Stub.start 0)).
  eexists. split; [exact Hrun|reflexivity].
Defined.


Lemma fit_transform_runs_exactly_on_the_wide_classes_witness :
  ∃ cl red w' evs,
    cluster_activations (L := Stub.sklearn) [0%nat; 1%nat] 2 3 "PCA" "KMeans"
      (Stub.start 0) = (Returned (Some (cl, red)), w')
    ∧ trace w' = [] ++ evs
    ∧ transform_calls evs
      = wide_classes 3 Stub.arrays (enumerate [0%nat; 1%nat]).
Proof.
  edestruct (fit_transform_runs_exactly_on_the_wide_classes
               (L := Stub.sklearn) [0%nat; 1%nat] 2 3 "PCA" "KMeans"
               (Stub.start 0)) as (evs & Ht & Hc).
  - apply stub_leaves_arrays_intact.
  - apply stub_start_allocated.
  - vm_compute. reflexivity.
  - eexists _, _, _, evs. split; [vm_compute; reflexivity|].
    split; [exact Ht|exact Hc].
Defined.

Lemma one_notice_per_narrow_class_witness :
  ∃ cl red w' evs,
    cluster_activations (L := Stub.sklearn) [0%nat; 1%nat] 2 3 "PCA" "KMeans"
      (Stub.start 0) = (Returned (Some (cl, red)), w')
    ∧ trace w' = [] ++ evs
    ∧ stdout evs
      = map (λ p, not_applying_notice (ncols (Stub.arrays !!! p.2)) 3)
          (narrow_classes 3 Stub.arrays (enumerate [0%nat; 1%nat])).
Proof.
  edestruct (one_notice_per_narrow_class
               (L := Stub.sklearn) [0%nat; 1%nat] 2 3 "PCA" "KMeans"
               (Stub.start 0)) as (evs & Ht & Hc).
  - apply stub_leaves_arrays_intact.
  - apply stub_start_allocated.
  - vm_compute. reflexivity.
  - eexists _, _, _, evs. split; [vm_compute; reflexivity|].
    split; [exact Ht|exact Hc].
Defined.



Lemma mxnet_is_not_supported :
  "mxnet" ∉ Conftest.art_supported_frameworks.
Proof.
  unfold Conftest.art_supported_frameworks.
  rewrite !elem_of_cons, elem_of_nil.
  intros [?|[?|[?|[?|[]]]]]; discriminate.
Qed.

Lemma pytorch_is_supported :
  "pytorch" ∈ Conftest.art_supported_frameworks.
Proof.
  unfold Conftest.art_supported_frameworks. rewrite !elem_of_cons. auto.
Qed.

Lemma accepted_framework_never_leaves_classifier_list_unassigned_witness :
  (∃ v, (Conftest.image_classifier_list string unit "kr" ("tf", tt) "pt"
           (λ c, "squeezed " +:+ c) "tensorflow" (λ _, true) false).1
        = inr v)
  ∧ (Conftest.image_classifier_list string unit "kr" ("tf", tt) "pt"
       (λ c, "squeezed " +:+ c) "mxnet" (λ _, true) false).1
    = inl (Conftest.unbound_local "classifier_list").
Proof.
  split.
  - apply (accepted_framework_never_leaves_classifier_list_unassigned
             string unit "kr" ("tf", tt) "pt" (λ c, "squeezed " +:+ c)
             "kr" ("tf", tt) "pt" (λ c, "unclipped " +:+ c) (λ _, [])
             None "tensorflow").
    reflexivity.
  - apply (accepted_framework_never_leaves_classifier_list_unassigned
             string unit "kr" ("tf", tt) "pt" (λ c, "squeezed " +:+ c)
             "kr" ("tf", tt) "pt" (λ c, "unclipped " +:+ c) (λ _, [])
             None "mxnet").
    apply mxnet_is_not_supported.
Defined.

Lemma image_classifier_list_is_none_exactly_when_it_warns_witness :
  (Conftest.image_classifier_list string unit "kr" ("tf", tt) "pt"
     (λ c, "squeezed " +:+ c) "pytorch" (λ _, true) true).1 = inr None.
Proof.
  destruct (image_classifier_list_is_none_exactly_when_it_warns
              string unit "kr" ("tf", tt) "pt" (λ c, "squeezed " +:+ c)
              "pytorch" (λ _, true) true pytorch_is_supported)
    as [[_ Hnone] _].
  apply Hnone. right. split; [reflexivity|discriminate].
Defined.

Lemma image_classifiers_are_valid_for_the_attack_witness :
  Forall (λ c, String.eqb c "kr" = true) ["kr"] ∧ (length ["kr"] ≤ 1)%nat.
Proof.
  apply (image_classifiers_are_valid_for_the_attack
           string unit "kr" ("tf", tt) "pt" (λ c, "squeezed " +:+ c)
           "keras" (λ c, String.eqb c "kr") false ["kr"]).
  reflexivity.
Defined.

Lemma tabular_classifiers_are_filtered_except_for_scikitlearn_witness :
  Conftest.tabular_classifier_list string unit "kr" ("tf", tt) "pt"
    (λ c, "unclipped " +:+ c)
    (λ clipped, if clipped then ["svc clipped"] else ["svc"; "tree"])
    "scikitlearn" (λ _, false) true
  = (inr (Some ["svc"; "tree"]), []).
Proof.
  apply (tabular_classifiers_are_filtered_except_for_scikitlearn
           string unit "kr" ("tf", tt) "pt" (λ c, "unclipped " +:+ c)
           (λ clipped, if clipped then ["svc clipped"] else ["svc"; "tree"])
           "scikitlearn" (λ _, false) true).
  reflexivity.
Defined.

End MoreRuns.
